(** * Criteria repository of EMSE-RMs: a shallow embedding of [criteria.py]

    The Python module keeps, per research method, a set of [Criterion]
    objects and renders evaluation prompts from them.  This file embeds the
    two classes ([Criterion], [CriteriaStore]) and proves the properties the
    specification states about them.

    Modelling choices.
    - Python [str] is [string], the UTF-8 bytes of the text.  [str.lower()]
      moves the letters A..Z to a..z and leaves every other byte alone: no
      character outside ASCII lower-cases to a letter of "must have", so the
      one comparison the code makes on a lower-cased string is unaffected.
    - [Criterion.attributes] is a Python [set] of pairs of strings: a
      [gset (string * string)].  Iterating over it is [elements].
    - [CriteriaStore.criteria] is a [defaultdict(set)] whose values hold
      [Criterion] objects hashed by identity.  The dictionary is a [gmap];
      a value is the list of the objects in the set, in iteration order.
      [set.add] of a fresh object extends the list, and mutating an object
      in place is an update of the list at its position.
    - A method of [CriteriaStore] takes [self] and returns the new [self];
      the methods that print, or that may raise, return an [outcome].
    - The file system is a finite map from a path to the rows [csv.reader]
      yields for the file at that path. *)

From stdpp Require Import gmap strings list fin_maps.
From Stdlib Require Import Ascii String ZArith.

Open Scope string_scope.

(** ** Strings *)

Module Str.

Definition nl : string := String "010"%char EmptyString.

(** [s[:n]] and [s[n:]] for an index [0 <= n]. *)
Definition take (n : nat) (s : string) : string := substring 0 n s.
Definition drop (n : nat) (s : string) : string :=
  substring n (String.length s - n) s.

(** [s.rfind(ch)]: the index of the last occurrence of [ch], [-1] when
    there is none.  [i] is the index of the head of [s]. *)
Fixpoint rfind_from (i : Z) (ch : ascii) (s : string) : Z :=
  match s with
  | EmptyString => (-1)%Z
  | String c s' =>
      let r := rfind_from (i + 1) ch s' in
      if (0 <=? r)%Z then r
      else if Ascii.eqb c ch then i else (-1)%Z
  end.

Definition rfind (ch : ascii) (s : string) : Z := rfind_from 0 ch s.

Definition startswith (ch : ascii) (s : string) : bool :=
  match s with
  | String c _ => Ascii.eqb c ch
  | EmptyString => false
  end.

Fixpoint endswith (ch : ascii) (s : string) : bool :=
  match s with
  | EmptyString => false
  | String c EmptyString => Ascii.eqb c ch
  | String _ s' => endswith ch s'
  end.

(** [str.lower()] on one character: the letters A..Z move to a..z. *)
Definition lower_char (c : ascii) : ascii :=
  let n := nat_of_ascii c in
  if (65 <=? n)%nat && (n <=? 90)%nat then ascii_of_nat (n + 32) else c.

Fixpoint lower (s : string) : string :=
  match s with
  | EmptyString => EmptyString
  | String c s' => String (lower_char c) (lower s')
  end.

(** [sep.join(l)] *)
Fixpoint join (sep : string) (l : list string) : string :=
  match l with
  | [] => ""
  | [x] => x
  | x :: l' => x ++ sep ++ join sep l'
  end.

End Str.

(** ** [os.path] (POSIX flavour) *)

Module OsPath.

(** [os.path.join(a, b)] *)
Definition join (a b : string) : string :=
  if Str.startswith "/" b then b
  else if (String.length a =? 0)%nat || Str.endswith "/" a then a ++ b
  else a ++ "/" ++ b.

(** [os.path.basename(p)] *)
Definition basename (p : string) : string :=
  let i := (Str.rfind "/" p + 1)%Z in
  Str.drop (Z.to_nat i) p.

(** The loop of [genericpath._splitext] that skips the leading dots of
    the file name: it runs while [filenameIndex < dotIndex], that is at
    most [n = dotIndex - filenameIndex] times. *)
Fixpoint splitext_scan (n : nat) (filenameIndex dotIndex : nat) (p : string)
  : option (string * string) :=
  match n with
  | O => None
  | S n' =>
      if negb (String.eqb (substring filenameIndex 1 p) ".")
      then Some (Str.take dotIndex p, Str.drop dotIndex p)
      else splitext_scan n' (S filenameIndex) dotIndex p
  end.

(** [os.path.splitext(p)] *)
Definition splitext (p : string) : string * string :=
  let sepIndex := Str.rfind "/" p in
  let dotIndex := Str.rfind "." p in
  if (sepIndex <? dotIndex)%Z then
    let filenameIndex := Z.to_nat (sepIndex + 1) in
    match splitext_scan (Z.to_nat dotIndex - filenameIndex)
                        filenameIndex (Z.to_nat dotIndex) p with
    | Some r => r
    | None => (p, "")
    end
  else (p, "").

End OsPath.

(** ** [class Criterion] *)

Record Criterion := mkCriterion {
  description : string;
  level : string;
  attributes : gset (string * string)
}.

(** [Criterion(description, level)] *)
Definition Criterion_init (description level : string) : Criterion :=
  mkCriterion description level ∅.

Definition add_attribute (self : Criterion) (moscow attribute : string)
  : Criterion :=
  mkCriterion (description self) (level self)
              (attributes self ∪ {[ (moscow, attribute) ]}).

(** The dictionary [to_dict] builds; [list(self.attributes)] is a fresh
    list, so the result shares nothing mutable with the store. *)
Record CriterionDict := mkCriterionDict {
  dict_description : string;
  dict_level : string;
  dict_attributes : list (string * string)
}.

Definition to_dict (self : Criterion) : CriterionDict :=
  mkCriterionDict (description self) (level self)
                  (elements (attributes self)).

(** ** [class CriteriaStore] *)

Record CriteriaStore := mkStore {
  criteria : gmap string (list Criterion)
}.

(** [CriteriaStore()] *)
Definition CriteriaStore_init : CriteriaStore := mkStore ∅.

(** [d[k]] on a [defaultdict(set)]: a missing key is first bound to the
    empty set, which is also the value returned. *)
Definition defaultdict_getitem (d : gmap string (list Criterion)) (k : string)
  : list Criterion * gmap string (list Criterion) :=
  match d !! k with
  | Some v => (v, d)
  | None => ([], <[k := []]> d)
  end.

(** [d.get(k, [])]: no binding is created. *)
Definition dict_get (d : gmap string (list Criterion)) (k : string)
  : list Criterion :=
  default [] (d !! k).

(** [next((c for c in criteria_set if c.description == description), None)],
    with the position of the object found. *)
Definition find_criterion (description0 : string) (criteria_set : list Criterion)
  : option (nat * Criterion) :=
  list_find (λ c, description c = description0) criteria_set.

Definition add_criterion (self : CriteriaStore)
    (research_method description0 level0 moscow attribute : string)
  : CriteriaStore :=
  let '(criteria_set, d1) := defaultdict_getitem (criteria self) research_method in
  match find_criterion description0 criteria_set with
  | Some (i, existing_criterion) =>
      mkStore (<[research_method :=
                 <[i := add_attribute existing_criterion moscow attribute]>
                   criteria_set]> d1)
  | None =>
      let new_criterion :=
        add_attribute (Criterion_init description0 level0) moscow attribute in
      let '(criteria_set', d2) := defaultdict_getitem d1 research_method in
      mkStore (<[research_method := (criteria_set' ++ [new_criterion])%list]> d2)
  end.


(** What the methods print, one constructor per [print] call of the class;
    the argument is the value the f-string formats. *)
Inductive printed :=
  | SkippingMalformedRow (row : list string)
  | IsTheCsvFile (csv_file : string)
  | CriteriaFileFound (csv_file : string)
  | NoCriteriaFileFound (research_method : string).

Inductive exn :=
  | FileNotFoundError (file_path : string)
  | StopIteration.

Inductive result (A : Type) :=
  | Returns (a : A)
  | Raises (e : exn).
Arguments Returns {A} a.
Arguments Raises {A} e.

(** The result of a call, the store it leaves and the lines it printed. *)
Record outcome (A : Type) := mkOutcome {
  value : result A;
  store : CriteriaStore;
  stdout : list printed
}.
Arguments mkOutcome {A} value store stdout.
Arguments value {A} o.
Arguments store {A} o.
Arguments stdout {A} o.

(** The files: a path is bound to the rows [csv.reader] yields for it. *)
Abbreviation filesystem := (gmap string (list (list string))).

(** The body of [for row in reader]. *)
Fixpoint load_rows (self : CriteriaStore) (research_method : string)
    (reader : list (list string)) : CriteriaStore * list printed :=
  match reader with
  | [] => (self, [])
  | row :: reader' =>
      match row with
      | [description0; level0; moscow; attribute] =>
          load_rows
            (add_criterion self research_method description0 level0 moscow attribute)
            research_method reader'
      | _ =>
          let '(self', out) := load_rows self research_method reader' in
          (self', SkippingMalformedRow row :: out)
      end
  end.

Definition load_from_csv (fs : filesystem) (self : CriteriaStore)
    (file_path : string) : outcome unit :=
  let research_method := fst (OsPath.splitext (OsPath.basename file_path)) in
  match fs !! file_path with
  | None => mkOutcome (Raises (FileNotFoundError file_path)) self []
  | Some reader =>
      match reader with
      | [] => mkOutcome (Raises StopIteration) self []
      | _header :: reader' =>
          let '(self', out) := load_rows self research_method reader' in
          mkOutcome (Returns tt) self' out
      end
  end.

Definition get_criteria_for_method (self : CriteriaStore)
    (research_method : string) : list CriterionDict * CriteriaStore :=
  (map to_dict (dict_get (criteria self) research_method), self).

(** [os.path.exists] *)
Definition exists_ (fs : filesystem) (path : string) : bool :=
  bool_decide (is_Some (fs !! path)).

Definition is_criteria_available (fs : filesystem) (self : CriteriaStore)
    (research_method : string) : outcome (option (list CriterionDict)) :=
  let csv_file := OsPath.join "csv/" (research_method ++ ".csv") in
  if exists_ fs csv_file then
    let o := load_from_csv fs self csv_file in
    match value o with
    | Raises e =>
        mkOutcome (Raises e) (store o)
          (IsTheCsvFile csv_file :: CriteriaFileFound csv_file :: stdout o)
    | Returns _ =>
        let '(r, self') := get_criteria_for_method (store o) research_method in
        mkOutcome (Returns (Some r)) self'
          (IsTheCsvFile csv_file :: CriteriaFileFound csv_file :: stdout o)
    end
  else
    mkOutcome (Returns None) self
      [IsTheCsvFile csv_file; NoCriteriaFileFound research_method].

(** [level.lower() == "must have"] *)
Definition is_must_have (level0 : string) : bool :=
  String.eqb (Str.lower level0) "must have".

Definition must_have_of (selected_criterion : Criterion) : list string :=
  map snd (filter (λ la, is_must_have (fst la) = true)
                  (elements (attributes selected_criterion))).

Definition other_criteria_of (selected_criterion : Criterion) : list string :=
  map snd (filter (λ la, is_must_have (fst la) ≠ true)
                  (elements (attributes selected_criterion))).

Definition bullet (c : string) : string := "- " ++ c.

Definition generate_prompt_for_criterion (self : CriteriaStore)
    (research_method criterion_description : string) : string * CriteriaStore :=
  let criteria_set := dict_get (criteria self) research_method in
  match find_criterion criterion_description criteria_set with
  | None =>
      ("No criterion found for " ++ criterion_description ++ " under "
         ++ research_method ++ ".", self)
  | Some (_, selected_criterion) =>
      let must_have := must_have_of selected_criterion in
      let other_criteria := other_criteria_of selected_criterion in
      let prompt :=
        "Please check if the article meets the following criterion:" ++ Str.nl
          ++ criterion_description ++ Str.nl ++ Str.nl in
      let prompt :=
        prompt ++ "It must at least meet the following Must Have criteria:"
               ++ Str.nl in
      let prompt :=
        match must_have with
        | _ :: _ => prompt ++ Str.join Str.nl (map bullet must_have) ++ Str.nl
        | [] => prompt ++ "- No explicitly defined 'Must Have' criteria." ++ Str.nl
        end in
      let prompt :=
        match other_criteria with
        | _ :: _ =>
            (prompt ++ Str.nl
               ++ "If one of these is missing, it can be replaced by at least two of the following:"
               ++ Str.nl)
              ++ Str.join Str.nl (map bullet other_criteria)
        | [] => prompt
        end in
      let prompt :=
        prompt ++ Str.nl ++ Str.nl
               ++ "Please return only the following: Yes or No, depending on the outcome." in
      (prompt, self)
  end.


(** ** Definitions used to state the properties *)

(** What one [add_criterion] does to the criteria set of its method. *)
Definition add_to_set (criteria_set : list Criterion)
    (description0 level0 moscow attribute : string) : list Criterion :=
  match find_criterion description0 criteria_set with
  | Some (i, existing_criterion) =>
      <[i := add_attribute existing_criterion moscow attribute]> criteria_set
  | None =>
      (criteria_set
         ++ [add_attribute (Criterion_init description0 level0) moscow attribute])%list
  end.

(** The criterion a search by description selects. *)
Definition lookup_description (description0 : string)
    (criteria_set : list Criterion) : option Criterion :=
  snd <$> find_criterion description0 criteria_set.

(** What the loop of [load_from_csv] does with one row. *)
Definition add_row (research_method : string) (self : CriteriaStore)
    (row : list string) : CriteriaStore :=
  match row with
  | [description0; level0; moscow; attribute] =>
      add_criterion self research_method description0 level0 moscow attribute
  | _ => self
  end.

(** The research method [load_from_csv] files the rows under. *)
Definition method_of_path (file_path : string) : string :=
  fst (OsPath.splitext (OsPath.basename file_path)).

(** Equality of strings up to the case of the letters A..Z, stated with
    upper case so that it does not go through [str.lower]. *)
Definition upper_char (c : ascii) : ascii :=
  let n := nat_of_ascii c in
  if (97 <=? n)%nat && (n <=? 122)%nat then ascii_of_nat (n - 32) else c.

Fixpoint upper (s : string) : string :=
  match s with
  | EmptyString => EmptyString
  | String c s' => String (upper_char c) (upper s')
  end.

Definition equal_ignoring_case (s t : string) : Prop := upper s = upper t.

#[global] Instance equal_ignoring_case_dec (s t : string) :
  Decision (equal_ignoring_case s t).
Proof. unfold equal_ignoring_case. apply _. Defined.

(** The four parts of a prompt, in the order they are appended. *)
Definition prompt_heading (criterion_description : string) : string :=
  "Please check if the article meets the following criterion:" ++ Str.nl
    ++ criterion_description ++ Str.nl ++ Str.nl.

Definition must_have_section (must_have : list string) : string :=
  "It must at least meet the following Must Have criteria:" ++ Str.nl
    ++ match must_have with
       | [] => "- No explicitly defined 'Must Have' criteria." ++ Str.nl
       | _ => Str.join Str.nl (map bullet must_have) ++ Str.nl
       end.

Definition substitution_paragraph (other_criteria : list string) : string :=
  match other_criteria with
  | [] => ""
  | _ =>
      Str.nl
        ++ "If one of these is missing, it can be replaced by at least two of the following:"
        ++ Str.nl ++ Str.join Str.nl (map bullet other_criteria)
  end.

Definition closing_instruction : string :=
  Str.nl ++ Str.nl
    ++ "Please return only the following: Yes or No, depending on the outcome.".

(** Every attribute text is listed in exactly one of the two partitions. *)
Definition each_text_in_one_partition (c : Criterion) : Prop :=
  ∀ t, t ∈ (snd <$> elements (attributes c)) →
       (t ∈ must_have_of c ∧ ¬ (t ∈ other_criteria_of c))
       ∨ (¬ (t ∈ must_have_of c) ∧ t ∈ other_criteria_of c).

(** The path the specification gives the criteria file of a method: the
    base directory, then the method, then the extension. *)
Definition criteria_path (research_method : string) : string :=
  "csv/" ++ research_method ++ ".csv".

(** The four fields of a row the loop does not skip. *)
Definition fields (row : list string)
  : option (string * string * string * string) :=
  match row with
  | [description0; level0; moscow; attribute] =>
      Some (description0, level0, moscow, attribute)
  | _ => None
  end.

(** What one row does to the criteria set of the file's method. *)
Definition add_row_to_set (criteria_set : list Criterion) (row : list string)
  : list Criterion :=
  match fields row with
  | Some (d, l, mo, a) => add_to_set criteria_set d l mo a
  | None => criteria_set
  end.

(** The attribute pairs the rows give for a description. *)
Fixpoint attributes_in (d : string) (rows : list (list string))
  : gset (string * string) :=
  match rows with
  | [] => ∅
  | row :: rows' =>
      match fields row with
      | Some (d', _, mo, a) =>
          if decide (d' = d) then {[ (mo, a) ]} ∪ attributes_in d rows'
          else attributes_in d rows'
      | None => attributes_in d rows'
      end
  end.

(** The level of the first row that has a description. *)
Fixpoint first_level (d : string) (rows : list (list string)) : option string :=
  match rows with
  | [] => None
  | row :: rows' =>
      match fields row with
      | Some (d', l, _, _) =>
          if decide (d' = d) then Some l else first_level d rows'
      | None => first_level d rows'
      end
  end.

(** What the rows make of the criterion a description selects. *)
Definition merged (d : string) (rows : list (list string))
    (before : option Criterion) : option Criterion :=
  match before with
  | Some c =>
      Some (mkCriterion (description c) (level c)
                        (attributes c ∪ attributes_in d rows))
  | None =>
      match first_level d rows with
      | Some l => Some (mkCriterion d l (attributes_in d rows))
      | None => None
      end
  end.

(** The level the rows leave a description with: the level its criterion
    had before, or else the level of the first row that carries it. *)
Definition level_after (d : string) (rows : list (list string))
    (before : option Criterion) : option string :=
  match before with
  | Some c => Some (level c)
  | None => first_level d rows
  end.

(** Rows of one description carry one level. *)
Definition levels_agree (rows : list (list string)) : Prop :=
  ∀ d l1 mo1 a1 l2 mo2 a2,
    [d; l1; mo1; a1] ∈ rows → [d; l2; mo2; a2] ∈ rows → l1 = l2.

(** No two criteria of a method have the same description. *)
Definition unique_descriptions (self : CriteriaStore) : Prop :=
  ∀ m, NoDup (description <$> dict_get (criteria self) m).

(** The contents of two stores as [get_criteria_for_method] shows them:
    for every method the same dictionaries, in some order. *)
Definition same_contents (self1 self2 : CriteriaStore) : Prop :=
  ∀ m, fst (get_criteria_for_method self1 m)
       ≡ₚ fst (get_criteria_for_method self2 m).

Definition dict_without_level (r : CriterionDict)
  : string * list (string * string) :=
  (dict_description r, dict_attributes r).

(** The same, with the levels left out. *)
Definition same_contents_up_to_level (self1 self2 : CriteriaStore) : Prop :=
  ∀ m, dict_without_level <$> fst (get_criteria_for_method self1 m)
       ≡ₚ dict_without_level <$> fst (get_criteria_for_method self2 m).

(** A row is covered by a criteria set when loading it would add nothing:
    its description selects a criterion that has its attribute pair. *)
Definition covers (criteria_set : list Criterion) (row : list string) : Prop :=
  match row with
  | [description0; _; moscow; attribute] =>
      ∃ c, lookup_description description0 criteria_set = Some c
           ∧ (moscow, attribute) ∈ attributes c
  | _ => True
  end.

(** The two query operations and what they answer. *)
Inductive query :=
  | GetCriteriaForMethod (research_method : string)
  | GeneratePromptForCriterion (research_method criterion_description : string).

Inductive answer :=
  | CriteriaOf (l : list CriterionDict)
  | PromptOf (prompt : string).

Definition run_query (self : CriteriaStore) (q : query) : answer * CriteriaStore :=
  match q with
  | GetCriteriaForMethod m =>
      let '(r, self') := get_criteria_for_method self m in (CriteriaOf r, self')
  | GeneratePromptForCriterion m d =>
      let '(r, self') := generate_prompt_for_criterion self m d in (PromptOf r, self')
  end.

(** A sequence of queries, each on the store the previous one left. *)
Fixpoint run_queries (self : CriteriaStore) (qs : list query)
  : list answer * CriteriaStore :=
  match qs with
  | [] => ([], self)
  | q :: qs' =>
      let '(r, self1) := run_query self q in
      let '(rs, self2) := run_queries self1 qs' in
      (r :: rs, self2)
  end.

(** The stores and files the examples below run on. *)
Module Examples.

Definition header : list string :=
  ["description"; "level"; "moscow"; "attribute"].

(** The three rows of the end-to-end scenario, for "Experiments". *)
Definition experiments_rows : list (list string) :=
  [ ["Randomization"; "High"; "Must Have"; "random assignment used"];
    ["Randomization"; "Low"; "Could Have"; "blinding applied"];
    ["Reporting"; "High"; "Should Have"; "effect sizes reported"] ].

Definition experiments_fs : filesystem :=
  {[ "csv/Experiments.csv" := header :: experiments_rows ]}.

Definition experiments_store : CriteriaStore :=
  store (load_from_csv experiments_fs CriteriaStore_init "csv/Experiments.csv").

Definition randomization : Criterion :=
  mkCriterion "Randomization" "High"
    {[ ("Must Have", "random assignment used");
       ("Could Have", "blinding applied") ]}.

(** One attribute text under two priorities. *)
Definition shared_text_fs : filesystem :=
  {[ "csv/Experiments.csv" :=
       [ header;
         ["Randomization"; "High"; "Must Have"; "random assignment used"];
         ["Randomization"; "High"; "Could Have"; "random assignment used"] ] ]}.

Definition shared_text_store : CriteriaStore :=
  store (load_from_csv shared_text_fs CriteriaStore_init "csv/Experiments.csv").

Definition shared_text : Criterion :=
  mkCriterion "Randomization" "High"
    {[ ("Must Have", "random assignment used");
       ("Could Have", "random assignment used") ]}.

(** A criteria file of no rows at all, not even the header. *)
Definition empty_file_fs : filesystem :=
  {[ "csv/Experiments.csv" := [] ]}.

(** A file outside the criteria directory, and no file inside it. *)
Definition outside_fs : filesystem :=
  {[ "/Experiments.csv" := header :: experiments_rows ]}.

(** The scenario with a row of three fields and a row of five fields
    between its rows. *)
Definition short_row : list string := ["Randomization"; "High"; "Must Have"].
Definition long_row : list string :=
  ["Reporting"; "High"; "Should Have"; "effect sizes reported"; "extra"].

Definition malformed_fs : filesystem :=
  {[ "csv/Experiments.csv" :=
       [ header;
         ["Randomization"; "High"; "Must Have"; "random assignment used"];
         short_row;
         ["Randomization"; "Low"; "Could Have"; "blinding applied"];
         long_row;
         ["Reporting"; "High"; "Should Have"; "effect sizes reported"] ] ]}.

(** One criterion with the priority "must have" in three spellings, and
    one attribute of another priority. *)
Definition spellings_fs : filesystem :=
  {[ "csv/Experiments.csv" :=
       [ header;
         ["Randomization"; "High"; "Must Have"; "random assignment used"];
         ["Randomization"; "High"; "must have"; "allocation concealed"];
         ["Randomization"; "High"; "MUST HAVE"; "sequence generated"];
         ["Randomization"; "High"; "Should Have"; "blinding applied"] ] ]}.

Definition spellings_store : CriteriaStore :=
  store (load_from_csv spellings_fs CriteriaStore_init "csv/Experiments.csv").

Definition spellings : Criterion :=
  mkCriterion "Randomization" "High"
    {[ ("Must Have", "random assignment used");
       ("must have", "allocation concealed");
       ("MUST HAVE", "sequence generated");
       ("Should Have", "blinding applied") ]}.

(** A store that has the description of [two_rows] already, at a level of
    its own. *)
Definition old_level_fs : filesystem :=
  {[ "csv/Experiments.csv" :=
       [ header; ["Randomization"; "Old"; "Must Have"; "allocation concealed"] ] ]}.

Definition old_level_store : CriteriaStore :=
  store (load_from_csv old_level_fs CriteriaStore_init "csv/Experiments.csv").

(** Two rows of one description, and the same rows in the other order. *)
Definition two_rows : list (list string) :=
  [ ["Randomization"; "High"; "Must Have"; "random assignment used"];
    ["Randomization"; "Low"; "Could Have"; "blinding applied"] ].

Definition two_rows_swapped : list (list string) :=
  [ ["Randomization"; "Low"; "Could Have"; "blinding applied"];
    ["Randomization"; "High"; "Must Have"; "random assignment used"] ].

Definition two_rows_fs : filesystem :=
  {[ "csv/Experiments.csv" := header :: two_rows ]}.

Definition two_rows_swapped_fs : filesystem :=
  {[ "csv/Experiments.csv" := header :: two_rows_swapped ]}.

(** The rows of the scenario from the last to the first. *)
Definition experiments_reversed_fs : filesystem :=
  {[ "csv/Experiments.csv" := header :: reverse experiments_rows ]}.

End Examples.

(** ** Definitions for the further properties *)

(** [ch in s] for a character. *)
Fixpoint contains (ch : ascii) (s : string) : bool :=
  match s with
  | EmptyString => false
  | String c s' => Ascii.eqb c ch || contains ch s'
  end.

(** A string of full stops only; the empty string is one. *)
Fixpoint all_dots (s : string) : bool :=
  match s with
  | EmptyString => true
  | String c s' => Ascii.eqb c "." && all_dots s'
  end.

(** More files for the examples. *)
Module MoreExamples.

(** A file none of whose rows has four fields. *)
Definition only_malformed_fs : filesystem :=
  {[ "csv/Experiments.csv" :=
       [ Examples.header; Examples.short_row; []; Examples.long_row ] ]}.

End MoreExamples.

(** ** [class Article] (article.py)

    The fields [articleQuality] and [rmQuality] hold JSON values the class
    only stores and hands on; their type is a parameter.  [filenames] is a
    Python [set] of strings.  The dictionary [to_dict] builds, and the one
    [from_dict] reads, has the six keys of the class.  The methods that talk
    to Firestore are not modelled. *)
Module Articles.

Record Article (json : Type) := mkArticle {
  name : string;
  research_method : string;
  doi : string;
  articleQuality : json;
  rmQuality : json;
  filenames : gset string
}.
Arguments mkArticle {json} _ _ _ _ _ _.
Arguments name {json} _.
Arguments research_method {json} _.
Arguments doi {json} _.
Arguments articleQuality {json} _.
Arguments rmQuality {json} _.
Arguments filenames {json} _.

Record ArticleDict (json : Type) := mkArticleDict {
  dict_name : string;
  dict_research_method : string;
  dict_doi : string;
  dict_articleQuality : json;
  dict_rmQuality : json;
  dict_filenames : list string
}.
Arguments mkArticleDict {json} _ _ _ _ _ _.
Arguments dict_name {json} _.
Arguments dict_research_method {json} _.
Arguments dict_doi {json} _.
Arguments dict_articleQuality {json} _.
Arguments dict_rmQuality {json} _.
Arguments dict_filenames {json} _.

(** [Article(name, research_method, doi, articleQuality, rmQuality,
    filenames)]; [filenames] defaults to [None], and
    [filenames if filenames else set()] replaces [None] and the empty set
    by a new empty set. *)
Definition init {json : Type} (name0 research_method0 doi0 : string)
    (articleQuality0 rmQuality0 : json) (filenames0 : option (gset string))
  : Article json :=
  mkArticle name0 research_method0 doi0 articleQuality0 rmQuality0
    (match filenames0 with
     | Some s => if decide (s = ∅) then ∅ else s
     | None => ∅
     end).

Definition add_filename {json : Type} (self : Article json) (filename : string)
  : Article json :=
  mkArticle (name self) (research_method self) (doi self)
    (articleQuality self) (rmQuality self) (filenames self ∪ {[ filename ]}).

(** [set.discard]: removing what is not there is not an error. *)
Definition remove_filename {json : Type} (self : Article json)
    (filename : string) : Article json :=
  mkArticle (name self) (research_method self) (doi self)
    (articleQuality self) (rmQuality self) (filenames self ∖ {[ filename ]}).

Definition to_dict {json : Type} (self : Article json) : ArticleDict json :=
  mkArticleDict (name self) (research_method self) (doi self)
    (articleQuality self) (rmQuality self) (elements (filenames self)).

Definition from_dict {json : Type} (data : ArticleDict json) : Article json :=
  init (dict_name data) (dict_research_method data) (dict_doi data)
    (dict_articleQuality data) (dict_rmQuality data)
    (Some (list_to_set (dict_filenames data))).

(** The article the classifier stores for a file of the articles directory. *)
Definition sample : Article string :=
  init "A study of reviews" "Experiments" "10.1000/182" "{}"
    "Randomization Yes" (Some {[ "study.pdf" ]}).

End Articles.

(** ** The answer the classifier reads from the assistant (classifyArticle.py)

    For every criterion the classifier takes the latest assistant message
    of the thread, strips it, takes its last line, strips that, and keeps it
    when it is "Yes" or "No".  A message is modelled by the three values the
    code reads from it; [str.strip()] removes from both ends the characters
    for which [str.isspace()] holds, given here by their UTF-8 encodings. *)
Module Answer.

Definition bytes (l : list nat) : string :=
  fold_right (λ n s, String (ascii_of_nat n) s) "" l.

(** U+0009..U+000D, U+001C..U+0020, U+0085, U+00A0, U+1680, U+2000..U+200A,
    U+2028, U+2029, U+202F, U+205F and U+3000. *)
Definition whitespace : list string :=
  bytes <$>
    [ [9]; [10]; [11]; [12]; [13]; [28]; [29]; [30]; [31]; [32];
      [194; 133]; [194; 160]; [225; 154; 128];
      [226; 128; 128]; [226; 128; 129]; [226; 128; 130]; [226; 128; 131];
      [226; 128; 132]; [226; 128; 133]; [226; 128; 134]; [226; 128; 135];
      [226; 128; 136]; [226; 128; 137]; [226; 128; 138];
      [226; 128; 168]; [226; 128; 169]; [226; 128; 175];
      [226; 129; 159]; [227; 128; 128] ].

Fixpoint reverse (s : string) : string :=
  match s with
  | EmptyString => EmptyString
  | String c s' => reverse s' ++ String c EmptyString
  end.

(** [s] without its prefix [pat], when it has that prefix. *)
Fixpoint strip_prefix (pat s : string) : option string :=
  match pat, s with
  | EmptyString, _ => Some s
  | String a pat', String b s' =>
      if Ascii.eqb a b then strip_prefix pat' s' else None
  | String _ _, EmptyString => None
  end.

(** [s] without the first of [pats] that it starts with. *)
Fixpoint skip_any (pats : list string) (s : string) : option string :=
  match pats with
  | [] => None
  | pat :: pats' =>
      match strip_prefix pat s with
      | Some s' => Some s'
      | None => skip_any pats' s
      end
  end.

(** Skipping while there is something to skip; every skip removes a byte at
    least, so [String.length s] rounds are enough. *)
Fixpoint skip_all (pats : list string) (fuel : nat) (s : string) : string :=
  match fuel with
  | O => s
  | S fuel' =>
      match skip_any pats s with
      | Some s' => skip_all pats fuel' s'
      | None => s
      end
  end.

Definition lstrip (s : string) : string :=
  skip_all whitespace (String.length s) s.

Definition rstrip (s : string) : string :=
  reverse (skip_all (reverse <$> whitespace) (String.length s) (reverse s)).

(** [s.strip()] *)
Definition strip (s : string) : string := rstrip (lstrip s).

(** [s.split(sep)] for a separator of one character. *)
Fixpoint split (sep : ascii) (s : string) : list string :=
  match s with
  | EmptyString => [""]
  | String c s' =>
      if Ascii.eqb c sep then "" :: split sep s'
      else match split sep s' with
           | x :: xs => String c x :: xs
           | [] => [String c ""]
           end
  end.

(** [response_text.split("\n")[-1].strip()], then the test against
    ["Yes", "No"]. *)
Definition yes_no_of_text (value : string) : string :=
  let response_text := strip value in
  let yes_no_answer := strip (List.last (split "010" response_text) "") in
  if bool_decide (yes_no_answer ∈ ["Yes"; "No"]) then yes_no_answer
  else "Unknown".

Record message := mkMessage {
  role : string;
  created_at : Z;
  (** [content[0].text.value] *)
  text_value : string
}.

(** [max(l, key=lambda msg: msg.created_at)] on a list with first element
    [m]: the first of the messages with the greatest time stamp. *)
Fixpoint max_by_created_at (m : message) (l : list message) : message :=
  match l with
  | [] => m
  | m' :: l' =>
      max_by_created_at (if (created_at m <? created_at m')%Z then m' else m) l'
  end.

Definition yes_no_answer (data : list message) : string :=
  let assistant_messages :=
    filter (λ msg, role msg = "assistant") data in
  match assistant_messages with
  | m :: l =>
      let latest_message := max_by_created_at m l in
      yes_no_of_text (text_value latest_message)
  | [] => "Unknown"
  end.

(** A character of ASCII that is white space for [str.strip()]. *)
Definition is_ascii_space (c : ascii) : bool :=
  let n := nat_of_ascii c in
  ((9 <=? n)%nat && (n <=? 13)%nat) || ((28 <=? n)%nat && (n <=? 32)%nat).

(** A character of ASCII that is not white space. *)
Definition is_ascii_mark (c : ascii) : bool :=
  (nat_of_ascii c <? 128)%nat && negb (is_ascii_space c).

(** White space of ASCII only. *)
Fixpoint blank (s : string) : bool :=
  match s with
  | EmptyString => true
  | String c s' => is_ascii_space c && blank s'
  end.

(** A text that begins and ends with a character of ASCII that is not
    white space. *)
Definition starts_with_mark (s : string) : bool :=
  match s with
  | String c _ => is_ascii_mark c
  | EmptyString => false
  end.

Definition edged (s : string) : bool :=
  starts_with_mark s && starts_with_mark (reverse s).

(** Nothing or a character of ASCII at the head. *)
Definition ascii_head (s : string) : bool :=
  match s with
  | String c _ => (nat_of_ascii c <? 128)%nat
  | EmptyString => true
  end.

(** A pattern whose bytes after the first are all outside ASCII. *)
Fixpoint high (s : string) : bool :=
  match s with
  | EmptyString => true
  | String c s' => (128 <=? nat_of_ascii c)%nat && high s'
  end.

Definition high_tail (pat : string) : bool :=
  match pat with
  | String _ t => high t
  | EmptyString => false
  end.

End Answer.

(** ** Cleaning the assistant's title and method (classifyArticle.py) *)
Module Cleanup.

(** Whether [old] occurs in [s]. *)
Fixpoint occurs (old s : string) : bool :=
  match Answer.strip_prefix old s with
  | Some _ => true
  | None =>
      match s with
      | EmptyString => false
      | String _ s' => occurs old s'
      end
  end.

(** [s.replace(old, new)] for a non-empty [old]: the occurrences of [old]
    are replaced from left to right, the search going on after each one.
    Every round consumes a byte at least, so [String.length s] rounds are
    enough. *)
Fixpoint replace_rounds (fuel : nat) (old new s : string) : string :=
  match fuel with
  | O => s
  | S fuel' =>
      match Answer.strip_prefix old s with
      | Some rest => new ++ replace_rounds fuel' old new rest
      | None =>
          match s with
          | EmptyString => EmptyString
          | String c s' => String c (replace_rounds fuel' old new s')
          end
      end
  end.

Definition replace (old new s : string) : string :=
  replace_rounds (String.length s) old new s.

(** [title_response.replace("Title: ", "").strip()] *)
Definition title_of (title_response : string) : string :=
  Answer.strip (replace "Title: " "" title_response).

(** [method_response.replace("Resulting Method: ", "").strip()] *)
Definition resulting_method_of (method_response : string) : string :=
  Answer.strip (replace "Resulting Method: " "" method_response).

End Cleanup.

(** ** The research methods the classifier offers (classifyArticle.py) *)
Module Classifier.

(** The list as the module writes it: no comma stands between its first
    two string literals, which Python therefore joins into one. *)
Definition RESEARCH_METHODS : list string :=
  [ "Data Science" ++ "Engineering Research";
    "Design Science";
    "Experiments";
    "Grounded Theory";
    "Longitudinal";
    "Meta Science";
    "Optimization";
    "Qualitative Survey";
    "Quantitative Survey";
    "Quantitative Simulation";
    "Qualitative Simulation";
    "Questionnaire Survey";
    "Replication";
    "Repository Mining";
    "Systematic Review" ].

(** [", ".join(RESEARCH_METHODS)], as the two prompts of the classifier
    have it. *)
Definition offered_methods : string := Str.join ", " RESEARCH_METHODS.

End Classifier.

(** * Properties *)

(** ** [add_criterion] on the criteria set of its method *)

Section add_criterion_facts.
Implicit Types (self : CriteriaStore) (cs : list Criterion) (c : Criterion).
Implicit Types (m d l mo a : string).

Lemma add_criterion_criteria self m d l mo a :
  criteria (add_criterion self m d l mo a)
  = <[m := add_to_set (dict_get (criteria self) m) d l mo a]> (criteria self).
Proof.
  unfold add_criterion, add_to_set, dict_get, defaultdict_getitem.
  destruct (criteria self !! m) as [cs|] eqn:Hm; simpl.
  - destruct (find_criterion d cs) as [[i c]|]; simpl; [done|].
    by rewrite Hm.
  - rewrite lookup_insert_eq. simpl. by rewrite insert_insert_eq.
Qed.

Lemma dict_get_add_criterion self m d l mo a m' :
  dict_get (criteria (add_criterion self m d l mo a)) m'
  = if decide (m' = m) then add_to_set (dict_get (criteria self) m) d l mo a
    else dict_get (criteria self) m'.
Proof.
  rewrite add_criterion_criteria. unfold dict_get at 1.
  case_decide as Hm.
  - subst. by rewrite lookup_insert_eq.
  - by rewrite lookup_insert_ne.
Qed.

Lemma find_criterion_cons d c cs :
  find_criterion d (c :: cs)
  = if decide (description c = d) then Some (0, c)
    else prod_map S id <$> find_criterion d cs.
Proof. reflexivity. Qed.

Lemma lookup_description_cons d c cs :
  lookup_description d (c :: cs)
  = if decide (description c = d) then Some c else lookup_description d cs.
Proof.
  unfold lookup_description. rewrite find_criterion_cons.
  case_decide; [done|]. by destruct (find_criterion d cs) as [[??]|].
Qed.

Lemma lookup_description_Some d cs c :
  lookup_description d cs = Some c → c ∈ cs ∧ description c = d.
Proof.
  induction cs as [|x cs IH]; [done|].
  rewrite lookup_description_cons. case_decide.
  - intros [= ->]. split; [left|done].
  - intros [??]%IH. split; [by right|done].
Qed.

Lemma lookup_description_None d cs :
  lookup_description d cs = None ↔ ∀ c, c ∈ cs → description c ≠ d.
Proof.
  induction cs as [|x cs IH].
  - split; [|done]. intros _ c Hc. by apply elem_of_nil in Hc.
  - rewrite lookup_description_cons. case_decide as Hx.
    + split; [done|]. intros H. destruct (H x); [left|done].
    + rewrite IH. split.
      * intros H c [->|Hc]%elem_of_cons; auto.
      * intros H c Hc. apply H. by right.
Qed.

(** Replacing the selected criterion by one of the same description. *)
Lemma lookup_description_insert d cs i c c' d' :
  find_criterion d cs = Some (i, c) → description c' = d →
  lookup_description d' (<[i := c']> cs)
  = if decide (d' = d) then Some c' else lookup_description d' cs.
Proof.
  revert i. induction cs as [|x cs IH]; intros i; [done|].
  rewrite find_criterion_cons. intros Hi Hc'.
  destruct (decide (description x = d)) as [Hx|Hx].
  - injection Hi as <- <-. simpl. rewrite !lookup_description_cons.
    repeat case_decide; congruence.
  - destruct (find_criterion d cs) as [[j y]|] eqn:Hf; [|done].
    injection Hi as <- <-. simpl. rewrite !lookup_description_cons.
    rewrite (IH j) by done. repeat case_decide; congruence.
Qed.

(** Adding a criterion whose description is not in the set. *)
Lemma lookup_description_snoc d cs c' d' :
  find_criterion d cs = None → description c' = d →
  lookup_description d' (cs ++ [c'])
  = if decide (d' = d) then Some c' else lookup_description d' cs.
Proof.
  induction cs as [|x cs IH].
  - intros _ Hc'. simpl. rewrite lookup_description_cons.
    repeat case_decide; congruence.
  - rewrite find_criterion_cons.
    destruct (decide (description x = d)) as [Hx|Hx]; [done|].
    destruct (find_criterion d cs) as [[j y]|] eqn:Hf; [done|].
    intros _ Hc'. simpl. rewrite !lookup_description_cons.
    rewrite IH by done. repeat case_decide; congruence.
Qed.

(** The search by description after one [add_criterion]. *)
Lemma lookup_add_to_set cs d l mo a d' :
  lookup_description d' (add_to_set cs d l mo a)
  = if decide (d' = d) then
      Some (match lookup_description d cs with
            | Some c => add_attribute c mo a
            | None => add_attribute (Criterion_init d l) mo a
            end)
    else lookup_description d' cs.
Proof.
  unfold add_to_set.
  destruct (find_criterion d cs) as [[i c]|] eqn:Hf.
  - assert (lookup_description d cs = Some c) as Hl
      by (unfold lookup_description; by rewrite Hf).
    rewrite (lookup_description_insert d cs i c); [by rewrite Hl|done|].
    by destruct (lookup_description_Some _ _ _ Hl).
  - assert (lookup_description d cs = None) as Hl
      by (unfold lookup_description; by rewrite Hf).
    rewrite (lookup_description_snoc d); [by rewrite Hl|done|done].
Qed.

End add_criterion_facts.

(** ** Dedup by description *)

Section dedup.
Implicit Types (self : CriteriaStore) (cs : list Criterion) (c : Criterion).
Implicit Types (m d l mo a : string).

Lemma find_criterion_lookup d cs :
  lookup_description d cs = None → find_criterion d cs = None.
Proof.
  unfold lookup_description. by destruct (find_criterion d cs).
Qed.

Lemma filter_description_fresh d cs :
  lookup_description d cs = None →
  filter (λ c, description c = d) cs = [].
Proof.
  intros Hd. induction cs as [|x cs IH]; [done|].
  rewrite lookup_description_cons in Hd. case_decide; [done|].
  rewrite filter_cons_False by done. auto.
Qed.

Lemma add_to_set_fresh cs d l mo a :
  lookup_description d cs = None →
  add_to_set cs d l mo a = (cs ++ [mkCriterion d l {[ (mo, a) ]}])%list.
Proof.
  intros Hd%find_criterion_lookup. unfold add_to_set. rewrite Hd.
  unfold add_attribute, Criterion_init. simpl. by rewrite (left_id_L ∅ (∪)).
Qed.

Lemma add_to_set_last cs d l mo a c :
  lookup_description d cs = None → description c = d →
  add_to_set (cs ++ [c]) d l mo a = (cs ++ [add_attribute c mo a])%list.
Proof.
  intros Hd%find_criterion_lookup Hc. unfold add_to_set, find_criterion in *.
  rewrite list_find_app_r by done. simpl.
  rewrite decide_True by done. simpl.
  rewrite insert_app_r_alt by lia.
  by rewrite Nat.sub_diag.
Qed.

Lemma load_rows_store self m reader :
  fst (load_rows self m reader) = foldl (add_row m) self reader.
Proof.
  revert self. induction reader as [|row reader IH]; intros self; [done|].
  simpl. destruct row as [|d [|l [|mo [|a [|? ?]]]]]; simpl;
    try (specialize (IH self); destruct (load_rows self m reader); by simpl in * ).
  apply IH.
Qed.

Lemma load_from_csv_rows fs self file_path header reader :
  fs !! file_path = Some (header :: reader) →
  load_from_csv fs self file_path
  = let r := load_rows self (method_of_path file_path) reader in
    mkOutcome (Returns tt) (fst r) (snd r).
Proof.
  intros Hf. unfold load_from_csv. rewrite Hf. fold (method_of_path file_path).
  by destruct (load_rows self (method_of_path file_path) reader).
Qed.

End dedup.

(** C1.  Two rows of one file with the same description yield exactly one
    [Criterion] of that description under the file's research method: its
    attribute set holds both pairs and its level is the one of the row
    loaded first.  And for a description the method already has, the level
    passed to [add_criterion] is discarded: the store that results does not
    depend on it, and no level of the method changes. *)
Theorem dedup_by_description (fs : filesystem) (self : CriteriaStore)
    (file_path : string) (header : list string)
    (m d l1 mo1 a1 l2 mo2 a2 : string) (c : Criterion) :
  (fs !! file_path = Some [header; [d; l1; mo1; a1]; [d; l2; mo2; a2]] →
   method_of_path file_path = m →
   lookup_description d (dict_get (criteria self) m) = None →
   let o := load_from_csv fs self file_path in
   value o = Returns tt ∧
   filter (λ c, description c = d) (dict_get (criteria (store o)) m)
   = [mkCriterion d l1 {[ (mo1, a1); (mo2, a2) ]}])
  ∧
  (lookup_description d (dict_get (criteria self) m) = Some c →
   add_criterion self m d l1 mo1 a1 = add_criterion self m d l2 mo1 a1 ∧
   map level (dict_get (criteria (add_criterion self m d l1 mo1 a1)) m)
   = map level (dict_get (criteria self) m)).
Proof.
  split.
  - intros Hf Hm Hd o. subst o. rewrite (load_from_csv_rows _ _ _ _ _ Hf).
    rewrite Hm. simpl. split; [reflexivity|].
    rewrite !dict_get_add_criterion, !decide_True by done.
    rewrite (add_to_set_fresh (dict_get (criteria self) m)) by done.
    rewrite add_to_set_last by done.
    rewrite filter_app, filter_description_fresh by done.
    simpl. rewrite filter_cons_True by done. done.
  - intros Hc. split.
    + destruct self as [cr]. unfold add_criterion, defaultdict_getitem. simpl in *.
      unfold lookup_description, dict_get in Hc.
      destruct (cr !! m) as [cs|] eqn:Hm; simpl in *; [|done].
      by destruct (find_criterion d cs) as [[i c']|].
    + rewrite dict_get_add_criterion, decide_True by done.
      unfold add_to_set, lookup_description in *.
      destruct (find_criterion d (dict_get (criteria self) m)) as [[i c']|] eqn:Hfind;
        [|done].
      apply list_find_Some in Hfind as (Hi & _ & _).
      rewrite list_fmap_insert. simpl.
      by rewrite list_insert_id by (by rewrite list_lookup_fmap, Hi).
Qed.

(** The end-to-end scenario: three rows, two of them of one description,
    give two dictionaries, one of them with two attributes. *)
Example end_to_end_scenario :
  let r := fst (get_criteria_for_method Examples.experiments_store
                  "Experiments") in
  dict_description <$> r = ["Randomization"; "Reporting"]
  ∧ dict_level <$> r = ["High"; "High"]
  ∧ List.length <$> (dict_attributes <$> r) = [2; 1].
Proof. vm_compute. done. Qed.

Lemma dedup_by_description_witness :
  (let o := load_from_csv Examples.two_rows_fs CriteriaStore_init
              "csv/Experiments.csv" in
   value o = Returns tt ∧
   filter (λ c, description c = "Randomization")
          (dict_get (criteria (store o)) "Experiments")
   = [Examples.randomization])
  ∧
  (add_criterion Examples.experiments_store "Experiments" "Randomization"
     "High" "Must Have" "random assignment used"
   = add_criterion Examples.experiments_store "Experiments" "Randomization"
       "Low" "Must Have" "random assignment used" ∧
   map level
     (dict_get
        (criteria
           (add_criterion Examples.experiments_store "Experiments"
              "Randomization" "High" "Must Have" "random assignment used"))
        "Experiments")
   = map level (dict_get (criteria Examples.experiments_store) "Experiments")).
Proof.
  split.
  - apply (proj1 (dedup_by_description Examples.two_rows_fs CriteriaStore_init
                    "csv/Experiments.csv" Examples.header
                    "Experiments" "Randomization"
                    "High" "Must Have" "random assignment used"
                    "Low" "Could Have" "blinding applied"
                    Examples.randomization)).
    + vm_compute. reflexivity.
    + vm_compute. reflexivity.
    + vm_compute. reflexivity.
  - apply (proj2 (dedup_by_description Examples.experiments_fs
                    Examples.experiments_store
                    "csv/Experiments.csv" Examples.header
                    "Experiments" "Randomization"
                    "High" "Must Have" "random assignment used"
                    "Low" "Could Have" "blinding applied"
                    Examples.randomization)).
    vm_compute. reflexivity.
Defined.

(** ** Malformed rows *)

Lemma load_rows_filter (self : CriteriaStore) (m : string)
    (reader : list (list string)) :
  load_rows self m reader
  = (foldl (add_row m) self (filter (λ row, List.length row = 4) reader),
     SkippingMalformedRow <$> filter (λ row, List.length row ≠ 4) reader).
Proof.
  revert self. induction reader as [|row reader IH]; intros self; [done|].
  rewrite !filter_cons.
  destruct row as [|d [|l [|mo [|a [|? ?]]]]]; simpl; rewrite IH;
    repeat case_decide; simpl in *; (done || lia).
Qed.

(** C5.  [load_from_csv] on a file with a header never raises because of
    its rows: the store it leaves is the one [add_criterion] builds from the
    rows of exactly four fields, in their order, whatever rows of another
    length stand between them, and it prints one diagnostic for each row
    that is skipped. *)
Theorem malformed_rows_skipped (fs : filesystem) (self : CriteriaStore)
    (file_path : string) (header : list string) (reader : list (list string)) :
  fs !! file_path = Some (header :: reader) →
  let o := load_from_csv fs self file_path in
  value o = Returns tt
  ∧ store o = foldl (add_row (method_of_path file_path)) self
                    (filter (λ row, List.length row = 4) reader)
  ∧ stdout o = SkippingMalformedRow
                 <$> filter (λ row, List.length row ≠ 4) reader.
Proof.
  intros Hf o. subst o. rewrite (load_from_csv_rows _ _ _ _ _ Hf).
  by rewrite load_rows_filter.
Qed.

Lemma malformed_rows_skipped_witness :
  let o := load_from_csv Examples.malformed_fs CriteriaStore_init
             "csv/Experiments.csv" in
  value o = Returns tt
  ∧ store o = Examples.experiments_store
  ∧ stdout o = [SkippingMalformedRow Examples.short_row;
                SkippingMalformedRow Examples.long_row].
Proof.
  apply (malformed_rows_skipped Examples.malformed_fs CriteriaStore_init
           "csv/Experiments.csv" Examples.header
           [ ["Randomization"; "High"; "Must Have"; "random assignment used"];
             Examples.short_row;
             ["Randomization"; "Low"; "Could Have"; "blinding applied"];
             Examples.long_row;
             ["Reporting"; "High"; "Should Have"; "effect sizes reported"] ]).
  vm_compute. reflexivity.
Defined.

(** ** Queries *)

(** C6.  When no criterion of the method has the description asked for,
    [generate_prompt_for_criterion] returns the diagnostic string that names
    the description and the method; the call returns, it does not raise. *)
Theorem unknown_criterion_soft_failure (self : CriteriaStore) (m d : string) :
  (∀ c, c ∈ dict_get (criteria self) m → description c ≠ d) →
  generate_prompt_for_criterion self m d
  = ("No criterion found for " ++ d ++ " under " ++ m ++ ".", self).
Proof.
  intros Hd%lookup_description_None%find_criterion_lookup.
  unfold generate_prompt_for_criterion. by rewrite Hd.
Qed.

Lemma unknown_criterion_soft_failure_witness :
  generate_prompt_for_criterion Examples.experiments_store
    "Experiments" "Blinding"
  = ("No criterion found for Blinding under Experiments.",
     Examples.experiments_store).
Proof.
  apply (unknown_criterion_soft_failure Examples.experiments_store
           "Experiments" "Blinding").
  apply lookup_description_None. vm_compute. reflexivity.
Defined.

(** C8.  For a research method that is not a key of the store,
    [get_criteria_for_method] returns the empty list. *)
Theorem unknown_method_empty (self : CriteriaStore) (m : string) :
  criteria self !! m = None →
  get_criteria_for_method self m = ([], self).
Proof.
  intros Hm. unfold get_criteria_for_method, dict_get. by rewrite Hm.
Qed.

Lemma unknown_method_empty_witness :
  get_criteria_for_method Examples.experiments_store "NoSuchMethod"
  = ([], Examples.experiments_store).
Proof.
  apply (unknown_method_empty Examples.experiments_store "NoSuchMethod").
  vm_compute. reflexivity.
Defined.

Lemma run_query_store (self : CriteriaStore) (q : query) :
  snd (run_query self q) = self.
Proof.
  destruct q as [m|m d]; simpl; [done|].
  unfold generate_prompt_for_criterion.
  by destruct (find_criterion d (dict_get (criteria self) m)) as [[??]|].
Qed.

(** Unlike the queries, indexing the [defaultdict] binds an unknown key. *)
Lemma defaultdict_getitem_binds (d : gmap string (list Criterion)) (k : string) :
  d !! k = None → dom (snd (defaultdict_getitem d k)) = {[ k ]} ∪ dom d.
Proof.
  intros Hk. unfold defaultdict_getitem. rewrite Hk. simpl.
  by rewrite dom_insert_L.
Qed.

(** C10.  No sequence of [get_criteria_for_method] and
    [generate_prompt_for_criterion] calls changes the store: the store the
    last query leaves is the one the first query found, so the set of known
    methods is the same, a method that was unknown is still unknown, and
    every criteria set is the same. *)
Theorem queries_do_not_mutate (self : CriteriaStore) (qs : list query) :
  snd (run_queries self qs) = self
  ∧ dom (criteria (snd (run_queries self qs))) = dom (criteria self)
  ∧ ∀ m, criteria (snd (run_queries self qs)) !! m = criteria self !! m.
Proof.
  assert (snd (run_queries self qs) = self) as ->; [|done].
  revert self. induction qs as [|q qs IH]; intros self; [done|].
  simpl. pose proof (run_query_store self q) as Hq.
  destruct (run_query self q) as [r self1]. simpl in Hq. subst self1.
  specialize (IH self). by destruct (run_queries self qs).
Qed.

(** ** Loading a file again *)

Section reload.
Implicit Types (self : CriteriaStore) (cs : list Criterion) (c : Criterion).
Implicit Types (m d l mo a : string) (row : list string).

Lemma store_eq self1 self2 : criteria self1 = criteria self2 → self1 = self2.
Proof. destruct self1, self2. simpl. congruence. Qed.

Lemma add_attribute_present c mo a :
  (mo, a) ∈ attributes c → add_attribute c mo a = c.
Proof.
  intros Ha. destruct c as [d l s]. unfold add_attribute. simpl in *.
  f_equal. apply set_eq. intros x.
  rewrite elem_of_union, elem_of_singleton.
  split; [intros [Hx| ->]; assumption|by left].
Qed.

Lemma add_to_set_covered cs d l mo a :
  covers cs [d; l; mo; a] → add_to_set cs d l mo a = cs.
Proof.
  intros (c & Hc & Ha). unfold add_to_set, lookup_description in *.
  destruct (find_criterion d cs) as [[i c']|] eqn:Hf; [|done].
  injection Hc as ->. apply list_find_Some in Hf as (Hi & _ & _).
  apply list_insert_id. by rewrite add_attribute_present.
Qed.

Lemma covers_add_to_set cs d l mo a row :
  covers cs row → covers (add_to_set cs d l mo a) row.
Proof.
  destruct row as [|d' [|l' [|mo' [|a' [|? ?]]]]]; try done.
  intros (c & Hc & Ha). simpl. rewrite lookup_add_to_set.
  destruct (decide (d' = d)) as [Hd|Hd].
  - subst d'. rewrite Hc. eexists. split; [done|]. simpl. set_solver.
  - by exists c.
Qed.

Lemma covers_add_to_set_self cs d l mo a :
  covers (add_to_set cs d l mo a) [d; l; mo; a].
Proof.
  simpl. rewrite lookup_add_to_set, decide_True by done.
  eexists. split; [done|].
  destruct (lookup_description d cs); simpl; set_solver.
Qed.

Lemma add_row_covered self m row :
  covers (dict_get (criteria self) m) row → add_row m self row = self.
Proof.
  destruct row as [|d [|l [|mo [|a [|? ?]]]]]; try done.
  intros Hc. apply store_eq. simpl. rewrite add_criterion_criteria.
  rewrite add_to_set_covered by done. apply insert_id.
  destruct Hc as (c & Hc & _). unfold dict_get in *.
  by destruct (criteria self !! m).
Qed.

Lemma covers_add_row self m row row' :
  covers (dict_get (criteria self) m) row' →
  covers (dict_get (criteria (add_row m self row)) m) row'.
Proof.
  destruct row as [|d [|l [|mo [|a [|? ?]]]]]; try done.
  intros Hc. simpl. rewrite dict_get_add_criterion, decide_True by done.
  by apply covers_add_to_set.
Qed.

Lemma covers_add_row_self self m row :
  covers (dict_get (criteria (add_row m self row)) m) row.
Proof.
  destruct row as [|d [|l [|mo [|a [|? ?]]]]]; try done.
  unfold add_row. rewrite dict_get_add_criterion, decide_True by done.
  apply covers_add_to_set_self.
Qed.

Lemma covers_foldl self m rows row' :
  covers (dict_get (criteria self) m) row' →
  covers (dict_get (criteria (foldl (add_row m) self rows)) m) row'.
Proof.
  revert self. induction rows as [|row rows IH]; intros self Hc; [done|].
  simpl. by apply IH, covers_add_row.
Qed.

Lemma covers_loaded self m rows :
  Forall (covers (dict_get (criteria (foldl (add_row m) self rows)) m)) rows.
Proof.
  revert self. induction rows as [|row rows IH]; intros self; [done|].
  simpl. constructor; [|apply IH].
  apply covers_foldl, covers_add_row_self.
Qed.

Lemma foldl_covered self m rows :
  Forall (covers (dict_get (criteria self) m)) rows →
  foldl (add_row m) self rows = self.
Proof.
  induction 1 as [|row rows Hrow _ IH]; [done|].
  simpl. by rewrite add_row_covered.
Qed.

End reload.

(** C9.  Loading a file a second time changes nothing: both loads return,
    and the store after the second load is the store after the first.  Every
    row finds the criterion its description selected the first time, and
    adds to it an attribute pair that is already there. *)
Theorem reload_is_idempotent (fs : filesystem) (self : CriteriaStore)
    (file_path : string) (header : list string) (reader : list (list string)) :
  fs !! file_path = Some (header :: reader) →
  let o1 := load_from_csv fs self file_path in
  let o2 := load_from_csv fs (store o1) file_path in
  value o1 = Returns tt ∧ value o2 = Returns tt ∧ store o2 = store o1.
Proof.
  intros Hf o1 o2. subst o1 o2.
  rewrite !(load_from_csv_rows _ _ _ _ _ Hf). simpl.
  split; [done|]. split; [done|].
  rewrite !load_rows_store. apply foldl_covered, covers_loaded.
Qed.

Lemma reload_is_idempotent_witness :
  store (load_from_csv Examples.experiments_fs Examples.experiments_store
           "csv/Experiments.csv")
  = Examples.experiments_store.
Proof.
  apply (reload_is_idempotent Examples.experiments_fs CriteriaStore_init
           "csv/Experiments.csv" Examples.header Examples.experiments_rows).
  vm_compute. reflexivity.
Defined.

(** ** Priorities *)

Section priorities.

Lemma upper_lower_char c : upper_char (Str.lower_char c) = upper_char c.
Proof. destruct c as [[] [] [] [] [] [] [] []]; reflexivity. Qed.

Lemma lower_upper_char c : Str.lower_char (upper_char c) = Str.lower_char c.
Proof. destruct c as [[] [] [] [] [] [] [] []]; reflexivity. Qed.

Lemma upper_lower s : upper (Str.lower s) = upper s.
Proof. induction s as [|c s IH]; simpl; [done|]. by rewrite upper_lower_char, IH. Qed.

Lemma lower_upper s : Str.lower (upper s) = Str.lower s.
Proof. induction s as [|c s IH]; simpl; [done|]. by rewrite lower_upper_char, IH. Qed.

Lemma is_must_have_iff level0 :
  is_must_have level0 = true ↔ equal_ignoring_case level0 "must have".
Proof.
  unfold is_must_have, equal_ignoring_case. rewrite String.eqb_eq. split.
  - intros H. by rewrite <- upper_lower, H.
  - intros H. by rewrite <- lower_upper, H.
Qed.

Lemma elem_of_must_have_of c t :
  t ∈ must_have_of c ↔ ∃ p, (p, t) ∈ attributes c ∧ is_must_have p = true.
Proof.
  unfold must_have_of. rewrite list_elem_of_fmap. split.
  - intros ([p t'] & -> & [Hp Hin]%list_elem_of_filter). simpl in *.
    exists p. by rewrite <- elem_of_elements.
  - intros (p & Hin & Hp). exists (p, t). split; [done|].
    apply list_elem_of_filter. by rewrite elem_of_elements.
Qed.

Lemma elem_of_other_criteria_of c t :
  t ∈ other_criteria_of c ↔ ∃ p, (p, t) ∈ attributes c ∧ is_must_have p ≠ true.
Proof.
  unfold other_criteria_of. rewrite list_elem_of_fmap. split.
  - intros ([p t'] & -> & [Hp Hin]%list_elem_of_filter). simpl in *.
    exists p. by rewrite <- elem_of_elements.
  - intros (p & Hin & Hp). exists (p, t). split; [done|].
    apply list_elem_of_filter. by rewrite elem_of_elements.
Qed.

End priorities.

(** ** The prompt *)

Section prompt.

Lemma append_assoc (s1 s2 s3 : string) : (s1 ++ s2) ++ s3 = s1 ++ s2 ++ s3.
Proof.
  induction s1 as [|x s1 IH]; [done|].
  change (String x ((s1 ++ s2) ++ s3) = String x (s1 ++ s2 ++ s3)).
  by rewrite IH.
Qed.

Lemma partitions_permutation c :
  (must_have_of c ++ other_criteria_of c)%list
  ≡ₚ snd <$> elements (attributes c).
Proof.
  unfold must_have_of, other_criteria_of.
  rewrite <- fmap_app. apply fmap_Permutation.
  apply (filter_app_complement (λ la : string * string, is_must_have (fst la) = true)).
Qed.

Lemma generate_prompt_found self m d c :
  lookup_description d (dict_get (criteria self) m) = Some c →
  generate_prompt_for_criterion self m d
  = (prompt_heading d ++ must_have_section (must_have_of c)
       ++ substitution_paragraph (other_criteria_of c)
       ++ closing_instruction, self).
Proof.
  unfold lookup_description, generate_prompt_for_criterion.
  destruct (find_criterion d (dict_get (criteria self) m)) as [[i c']|]; [|done].
  intros [= ->]. f_equal.
  unfold prompt_heading, must_have_section, substitution_paragraph,
    closing_instruction.
  destruct (must_have_of c), (other_criteria_of c);
    by rewrite !append_assoc.
Qed.

End prompt.

(** C7.  A priority string counts as Must-Have exactly when it equals
    "must have" up to the case of its letters; the spellings "Must Have",
    "must have" and "MUST HAVE" all do.  In the prompt that
    [generate_prompt_for_criterion] returns for a criterion, the Must-Have
    section lists the texts of exactly the attribute pairs whose priority is
    such a string, and the substitution paragraph the texts of exactly the
    pairs of every other priority. *)
Theorem must_have_case_insensitive :
  (∀ p, is_must_have p = true ↔ equal_ignoring_case p "must have")
  ∧ is_must_have "Must Have" = true
  ∧ is_must_have "must have" = true
  ∧ is_must_have "MUST HAVE" = true
  ∧ (∀ c t,
      (t ∈ must_have_of c
       ↔ ∃ p, (p, t) ∈ attributes c ∧ equal_ignoring_case p "must have")
      ∧ (t ∈ other_criteria_of c
         ↔ ∃ p, (p, t) ∈ attributes c ∧ ¬ equal_ignoring_case p "must have"))
  ∧ ∀ self m d c,
      lookup_description d (dict_get (criteria self) m) = Some c →
      ∃ must_have other_criteria,
        generate_prompt_for_criterion self m d
        = (prompt_heading d ++ must_have_section must_have
             ++ substitution_paragraph other_criteria
             ++ closing_instruction, self)
        ∧ must_have
          = snd <$> filter (λ la, equal_ignoring_case (fst la) "must have")
                           (elements (attributes c))
        ∧ other_criteria
          = snd <$> filter (λ la, ¬ equal_ignoring_case (fst la) "must have")
                           (elements (attributes c)).
Proof.
  split; [apply is_must_have_iff|]. do 3 (split; [reflexivity|]).
  split.
  - intros c t. rewrite elem_of_must_have_of, elem_of_other_criteria_of.
    split; split; intros (p & Hin & Hp); exists p; split; try done;
      by rewrite <- ?is_must_have_iff in *.
  - intros self m d c Hc. exists (must_have_of c), (other_criteria_of c).
    split; [by apply generate_prompt_found|].
    unfold must_have_of, other_criteria_of. split; f_equal.
    + apply list_filter_iff. intros la. apply is_must_have_iff.
    + apply list_filter_iff. intros la. by rewrite is_must_have_iff.
Qed.

Lemma must_have_case_insensitive_witness :
  ∃ must_have other_criteria,
    generate_prompt_for_criterion Examples.spellings_store
      "Experiments" "Randomization"
    = (prompt_heading "Randomization" ++ must_have_section must_have
         ++ substitution_paragraph other_criteria
         ++ closing_instruction, Examples.spellings_store)
    ∧ must_have ≡ₚ ["random assignment used"; "allocation concealed";
                    "sequence generated"]
    ∧ other_criteria = ["blinding applied"].
Proof.
  destruct must_have_case_insensitive as (_ & _ & _ & _ & _ & H).
  destruct (H Examples.spellings_store "Experiments" "Randomization"
              Examples.spellings) as (mh & oc & Hprompt & -> & ->).
  { vm_compute. reflexivity. }
  eexists _, _. split; [exact Hprompt|].
  split; [|vm_compute; reflexivity].
  vm_compute. apply (bool_decide_unpack _). vm_compute. exact I.
Defined.

(** C2, as the code has it.  For a criterion found under the method, the
    prompt is the heading with the description, then the Must-Have section
    (the texts of the pairs whose priority is "must have", or the placeholder
    line when there is none), then the substitution paragraph, present
    exactly when some pair has another priority and listing the texts of all
    such pairs, then the instruction to answer Yes or No.  Each attribute
    pair puts its text into exactly one of the two lists, chosen by its
    priority: together the lists are the texts of the pairs, each pair
    counted once. *)
Theorem prompt_structure (self : CriteriaStore) (m d : string) (c : Criterion) :
  lookup_description d (dict_get (criteria self) m) = Some c →
  generate_prompt_for_criterion self m d
  = (prompt_heading d ++ must_have_section (must_have_of c)
       ++ substitution_paragraph (other_criteria_of c)
       ++ closing_instruction, self)
  ∧ (∀ t, t ∈ must_have_of c
          ↔ ∃ p, (p, t) ∈ attributes c ∧ is_must_have p = true)
  ∧ (∀ t, t ∈ other_criteria_of c
          ↔ ∃ p, (p, t) ∈ attributes c ∧ is_must_have p ≠ true)
  ∧ (substitution_paragraph (other_criteria_of c) = ""
     ↔ ∀ p t, (p, t) ∈ attributes c → is_must_have p = true)
  ∧ (must_have_of c ++ other_criteria_of c)%list
    ≡ₚ snd <$> elements (attributes c).
Proof.
  intros Hc. split; [by apply generate_prompt_found|].
  split; [apply elem_of_must_have_of|].
  split; [apply elem_of_other_criteria_of|].
  split; [|apply partitions_permutation].
  split.
  - intros Hs p t Hin. destruct (is_must_have p) eqn:Hp; [done|].
    assert (t ∈ other_criteria_of c) as Ht.
    { apply elem_of_other_criteria_of. exists p. by rewrite Hp. }
    destruct (other_criteria_of c); [by apply elem_of_nil in Ht|done].
  - intros Hall. destruct (other_criteria_of c) as [|t l] eqn:Ho; [done|].
    assert (t ∈ other_criteria_of c) as Ht by (rewrite Ho; left).
    apply elem_of_other_criteria_of in Ht as (p & Hin & Hp).
    by destruct Hp; eapply Hall.
Qed.

Lemma prompt_structure_witness :
  generate_prompt_for_criterion Examples.experiments_store
    "Experiments" "Randomization"
  = (prompt_heading "Randomization"
       ++ must_have_section ["random assignment used"]
       ++ substitution_paragraph ["blinding applied"]
       ++ closing_instruction, Examples.experiments_store).
Proof.
  apply (prompt_structure Examples.experiments_store "Experiments"
           "Randomization" Examples.randomization).
  vm_compute. reflexivity.
Defined.

(** C2 as it is stated fails where one text stands under a Must-Have and
    under another priority: the text is then listed in both partitions. *)
Lemma shared_text_in_both_partitions :
  lookup_description "Randomization"
    (dict_get (criteria Examples.shared_text_store) "Experiments")
  = Some Examples.shared_text
  ∧ ¬ each_text_in_one_partition Examples.shared_text.
Proof.
  split; [vm_compute; reflexivity|].
  intros H. destruct (H "random assignment used") as [[_ Hn]|[Hn _]].
  - apply list_elem_of_fmap. exists ("Must Have", "random assignment used").
    split; [done|]. apply elem_of_elements. unfold Examples.shared_text. simpl.
    apply elem_of_union_l. by apply elem_of_singleton.
  - apply Hn, elem_of_other_criteria_of. exists "Could Have".
    split; [|by vm_compute].
    unfold Examples.shared_text. simpl.
    apply elem_of_union_r. by apply elem_of_singleton.
  - apply Hn, elem_of_must_have_of. exists "Must Have".
    split; [|by vm_compute].
    unfold Examples.shared_text. simpl.
    apply elem_of_union_l. by apply elem_of_singleton.
Qed.

(** ** Availability of criteria *)

Section availability.

Lemma startswith_append ch s1 s2 :
  Str.startswith ch s2 = false → Str.startswith ch s1 = false →
  Str.startswith ch (s1 ++ s2) = false.
Proof. by destruct s1. Qed.

Lemma join_criteria_path m :
  Str.startswith "/" m = false →
  OsPath.join "csv/" (m ++ ".csv") = criteria_path m.
Proof.
  intros Hm. unfold OsPath.join.
  by rewrite (startswith_append "/" m ".csv").
Qed.

Lemma exists_true (fs : filesystem) path reader :
  fs !! path = Some reader → exists_ fs path = true.
Proof.
  intros H. unfold exists_. apply bool_decide_eq_true. by rewrite H.
Qed.

Lemma exists_false (fs : filesystem) path :
  fs !! path = None → exists_ fs path = false.
Proof.
  intros H. unfold exists_. apply bool_decide_eq_false. rewrite H.
  by intros [? ?].
Qed.

End availability.

(** C4, as the code has it.  For a method name that does not begin with
    "/", [is_criteria_available] looks for the file [csv/<method>.csv].
    When there is no such file it returns [None], raises nothing and leaves
    the store as it was.  When the file is there it runs [load_from_csv] on
    it and, if that returns, answers with what [get_criteria_for_method]
    gives for the method on the store the load left; if the load raises, so
    does the call. *)
Theorem is_criteria_available_spec (fs : filesystem) (self : CriteriaStore)
    (m : string) :
  Str.startswith "/" m = false →
  let csv_file := criteria_path m in
  let r := is_criteria_available fs self m in
  (fs !! csv_file = None →
   value r = Returns None ∧ store r = self
   ∧ stdout r = [IsTheCsvFile csv_file; NoCriteriaFileFound m])
  ∧ (∀ reader, fs !! csv_file = Some reader →
     let o := load_from_csv fs self csv_file in
     store r = store o
     ∧ match value o with
       | Returns _ =>
           value r = Returns (Some (fst (get_criteria_for_method (store o) m)))
       | Raises e => value r = Raises e
       end).
Proof.
  intros Hm csv_file r. subst r. unfold is_criteria_available.
  rewrite (join_criteria_path m Hm). fold csv_file. split.
  - intros Hf. by rewrite (exists_false _ _ Hf).
  - intros reader Hf. rewrite (exists_true _ _ _ Hf).
    by destruct (value (load_from_csv fs self csv_file)).
Qed.

Lemma is_criteria_available_spec_witness :
  value (is_criteria_available Examples.experiments_fs CriteriaStore_init
           "Experiments")
  = Returns (Some (fst (get_criteria_for_method Examples.experiments_store
                          "Experiments")))
  ∧ value (is_criteria_available Examples.experiments_fs CriteriaStore_init
             "Surveys")
    = Returns None.
Proof.
  split.
  - apply (proj2 (is_criteria_available_spec Examples.experiments_fs
                    CriteriaStore_init "Experiments" eq_refl)
             (Examples.header :: Examples.experiments_rows)).
    vm_compute. reflexivity.
  - apply (proj1 (is_criteria_available_spec Examples.experiments_fs
                    CriteriaStore_init "Surveys" eq_refl)).
    vm_compute. reflexivity.
Defined.

(** C4 as it is stated fails for a method name that begins with "/":
    [os.path.join] then drops the base directory.  With no file at
    [csv/<method>.csv] the call still finds a file, loads it and does not
    return [None].  And a file that exists need not give a result: on a
    file without a header row the load, and with it the call, raises. *)
Lemma absolute_method_leaves_base_dir :
  let r := is_criteria_available Examples.outside_fs CriteriaStore_init
             "/Experiments" in
  (Examples.outside_fs !! criteria_path "/Experiments" = None
   ∧ value r = Returns (Some [])
   ∧ store r = Examples.experiments_store
   ∧ List.length (dict_get (criteria (store r)) "Experiments") = 2
   ∧ dict_get (criteria CriteriaStore_init) "Experiments" = [])
  ∧ (Examples.empty_file_fs !! criteria_path "Experiments" = Some []
     ∧ value (is_criteria_available Examples.empty_file_fs CriteriaStore_init
                "Experiments")
       = Raises StopIteration).
Proof.
  split.
  - split; [vm_compute; reflexivity|]. split; [vm_compute; reflexivity|].
    split; [vm_compute; reflexivity|]. split; vm_compute; reflexivity.
  - split; vm_compute; reflexivity.
Qed.

(** ** Row order *)

Section row_order.
Implicit Types (self : CriteriaStore) (cs : list Criterion) (c : Criterion).
Implicit Types (m d l mo a : string) (row : list string).
Implicit Types (rows : list (list string)).

Lemma fields_Some row d l mo a :
  fields row = Some (d, l, mo, a) ↔ row = [d; l; mo; a].
Proof.
  destruct row as [|d' [|l' [|mo' [|a' [|? ?]]]]]; simpl;
    split; intros H; by simplify_eq.
Qed.

Lemma add_row_criteria self m row m' :
  dict_get (criteria (add_row m self row)) m'
  = if decide (m' = m) then add_row_to_set (dict_get (criteria self) m) row
    else dict_get (criteria self) m'.
Proof.
  unfold add_row_to_set.
  destruct row as [|d [|l [|mo [|a [|? ?]]]]]; simpl;
    try (by case_decide; subst).
  apply dict_get_add_criterion.
Qed.

Lemma foldl_add_row_criteria self m rows m' :
  dict_get (criteria (foldl (add_row m) self rows)) m'
  = if decide (m' = m)
    then foldl add_row_to_set (dict_get (criteria self) m) rows
    else dict_get (criteria self) m'.
Proof.
  revert self. induction rows as [|row rows IH]; intros self; simpl.
  - by case_decide; subst.
  - rewrite IH. destruct (decide (m' = m)) as [->|Hm].
    + by rewrite add_row_criteria, decide_True.
    + by rewrite add_row_criteria, decide_False.
Qed.

(** The search by description after the rows of a file. *)
Lemma lookup_foldl cs rows d :
  lookup_description d (foldl add_row_to_set cs rows)
  = merged d rows (lookup_description d cs).
Proof.
  revert cs. induction rows as [|row rows IH]; intros cs; simpl.
  - unfold merged. simpl.
    destruct (lookup_description d cs) as [c|]; [|done].
    destruct c as [d0 l0 s0]. simpl. by rewrite union_empty_r_L.
  - rewrite IH. unfold add_row_to_set, merged. simpl.
    destruct (fields row) as [[[[d' l'] mo'] a']|]; [|done].
    rewrite lookup_add_to_set.
    destruct (decide (d' = d)) as [->|Hd].
    + rewrite decide_True by done. simpl.
      destruct (lookup_description d cs) as [c|]; simpl.
      * by rewrite (assoc_L (∪)).
      * by rewrite union_empty_l_L.
    + by rewrite decide_False by done.
Qed.

Lemma elem_of_attributes_in d rows mo a :
  (mo, a) ∈ attributes_in d rows ↔ ∃ l, [d; l; mo; a] ∈ rows.
Proof.
  induction rows as [|row rows IH]; simpl.
  - split; [by intros ?%not_elem_of_empty|].
    by intros [l ?%elem_of_nil].
  - destruct (fields row) as [[[[d' l'] mo'] a']|] eqn:Hrow.
    + apply fields_Some in Hrow as ->.
      destruct (decide (d' = d)) as [->|Hd].
      * rewrite elem_of_union, elem_of_singleton, IH. split.
        -- intros [Heq|[l Hl]]; [simplify_eq; exists l'; left|exists l; by right].
        -- intros [l [Heq|Hl]%elem_of_cons];
             [left; by simplify_eq|right; by exists l].
      * rewrite IH. split.
        -- intros [l Hl]. exists l. by right.
        -- intros [l [Heq|Hl]%elem_of_cons]; [by simplify_eq|by exists l].
    + rewrite IH. split.
      * intros [l Hl]. exists l. by right.
      * intros [l [Heq|Hl]%elem_of_cons]; [by subst row|by exists l].
Qed.

Lemma first_level_Some d rows l :
  first_level d rows = Some l → ∃ mo a, [d; l; mo; a] ∈ rows.
Proof.
  induction rows as [|row rows IH]; simpl; [done|].
  destruct (fields row) as [[[[d' l'] mo'] a']|] eqn:Hrow.
  - apply fields_Some in Hrow as ->.
    destruct (decide (d' = d)) as [->|Hd].
    + intros [= ->]. exists mo', a'. left.
    + intros (mo & a & H)%IH. exists mo, a. by right.
  - intros (mo & a & H)%IH. exists mo, a. by right.
Qed.

Lemma first_level_None d rows l mo a :
  first_level d rows = None → ¬ ([d; l; mo; a] ∈ rows).
Proof.
  induction rows as [|row rows IH]; simpl.
  - by intros _ ?%elem_of_nil.
  - destruct (fields row) as [[[[d' l'] mo'] a']|] eqn:Hrow.
    + apply fields_Some in Hrow as ->.
      destruct (decide (d' = d)) as [->|Hd]; [done|].
      intros Hn [Heq|Hin]%elem_of_cons; [by simplify_eq|by apply IH].
    + intros Hn [Heq|Hin]%elem_of_cons; [by subst row|by apply IH].
Qed.

Lemma attributes_in_perm d rows1 rows2 :
  rows1 ≡ₚ rows2 → attributes_in d rows1 = attributes_in d rows2.
Proof.
  intros Hp. apply set_eq. intros [mo a].
  rewrite !elem_of_attributes_in.
  split; intros [l Hl]; exists l; [by rewrite <- Hp|by rewrite Hp].
Qed.

Lemma first_level_perm_is_Some d rows1 rows2 :
  rows1 ≡ₚ rows2 →
  is_Some (first_level d rows1) → is_Some (first_level d rows2).
Proof.
  intros Hp [l (mo & a & Hl)%first_level_Some].
  destruct (first_level d rows2) eqn:H2; [done|].
  destruct (first_level_None _ _ l mo a H2). by rewrite <- Hp.
Qed.

Lemma first_level_perm d rows1 rows2 :
  rows1 ≡ₚ rows2 → levels_agree rows1 →
  first_level d rows1 = first_level d rows2.
Proof.
  intros Hp Hagree.
  destruct (first_level d rows1) as [l1|] eqn:H1,
           (first_level d rows2) as [l2|] eqn:H2; [| | |done].
  - apply first_level_Some in H1 as (mo1 & a1 & Hl1).
    apply first_level_Some in H2 as (mo2 & a2 & Hl2).
    rewrite <- Hp in Hl2. f_equal. eauto.
  - destruct (first_level_perm_is_Some d rows1 rows2 Hp); [by rewrite H1|].
    congruence.
  - destruct (first_level_perm_is_Some d rows2 rows1); [done|by rewrite H2|].
    congruence.
Qed.

Lemma merged_perm d rows1 rows2 (o : option Criterion) :
  rows1 ≡ₚ rows2 → levels_agree rows1 →
  merged d rows1 o = merged d rows2 o.
Proof.
  intros Hp Hagree. unfold merged.
  by rewrite (attributes_in_perm d rows1 rows2),
             (first_level_perm d rows1 rows2).
Qed.

Lemma merged_perm_up_to_level d rows1 rows2 (o : option Criterion) :
  rows1 ≡ₚ rows2 →
  dict_without_level ∘ to_dict <$> merged d rows1 o
  = dict_without_level ∘ to_dict <$> merged d rows2 o.
Proof.
  intros Hp. unfold merged.
  rewrite (attributes_in_perm d rows1 rows2) by done.
  destruct o as [c|]; [done|].
  destruct (first_level d rows1) as [l1|] eqn:H1,
           (first_level d rows2) as [l2|] eqn:H2; [done| | |done].
  - destruct (first_level_perm_is_Some d rows1 rows2 Hp); [by rewrite H1|].
    congruence.
  - destruct (first_level_perm_is_Some d rows2 rows1); [done|by rewrite H2|].
    congruence.
Qed.

(** [add_criterion] keeps the descriptions of a method distinct. *)
Lemma add_to_set_NoDup cs d l mo a :
  NoDup (description <$> cs) →
  NoDup (description <$> add_to_set cs d l mo a).
Proof.
  intros Hnd. unfold add_to_set.
  destruct (find_criterion d cs) as [[i c]|] eqn:Hf.
  - apply list_find_Some in Hf as (Hi & _ & _).
    rewrite list_fmap_insert. simpl.
    by rewrite list_insert_id by (by rewrite list_lookup_fmap, Hi).
  - rewrite fmap_app. simpl. apply NoDup_app. split; [done|].
    split; [|apply NoDup_singleton].
    intros d' (c & Hd' & Hc)%list_elem_of_fmap Hd%list_elem_of_singleton.
    assert (lookup_description d cs = None) as Hn
      by (unfold lookup_description; by rewrite Hf).
    eapply lookup_description_None in Hn; [|done]. congruence.
Qed.

Lemma foldl_NoDup cs rows :
  NoDup (description <$> cs) →
  NoDup (description <$> foldl add_row_to_set cs rows).
Proof.
  revert cs. induction rows as [|row rows IH]; intros cs Hnd; [done|].
  simpl. apply IH. unfold add_row_to_set.
  destruct (fields row) as [[[[d l] mo] a]|]; [|done].
  by apply add_to_set_NoDup.
Qed.

Lemma lookup_description_elem cs c :
  NoDup (description <$> cs) → c ∈ cs →
  lookup_description (description c) cs = Some c.
Proof.
  induction cs as [|x cs IH]; [by intros _ ?%elem_of_nil|].
  rewrite fmap_cons, NoDup_cons, lookup_description_cons.
  intros [Hx Hnd] [->|Hc]%elem_of_cons.
  - by rewrite decide_True.
  - rewrite decide_False; [by apply IH|].
    intros Heq. apply Hx. rewrite Heq. by apply list_elem_of_fmap_2.
Qed.

(** Two sets with distinct descriptions in which every description
    selects the same thing hold the same things. *)
Lemma lookup_permutation {B} (f : Criterion → B) (g : B → string) cs1 cs2 :
  (∀ c, g (f c) = description c) →
  NoDup (description <$> cs1) → NoDup (description <$> cs2) →
  (∀ d, f <$> lookup_description d cs1 = f <$> lookup_description d cs2) →
  f <$> cs1 ≡ₚ f <$> cs2.
Proof.
  intros Hg Hnd1 Hnd2 Hl.
  assert (∀ cs, NoDup (description <$> cs) → NoDup (f <$> cs)) as Hnd.
  { intros cs Hcs. apply (NoDup_fmap_1 g). rewrite <- list_fmap_compose.
    by rewrite (list_fmap_ext (g ∘ f) description cs) by (intros; apply Hg). }
  assert (∀ cs cs', NoDup (description <$> cs) →
            (∀ d, f <$> lookup_description d cs = f <$> lookup_description d cs') →
            ∀ y, y ∈ f <$> cs → y ∈ f <$> cs') as Hsub.
  { intros cs cs' Hcs Heq y (c & -> & Hc)%list_elem_of_fmap.
    pose proof (Heq (description c)) as Hd.
    rewrite (lookup_description_elem cs c) in Hd by done. simpl in Hd.
    destruct (lookup_description (description c) cs') as [c'|] eqn:Hc'; [|done].
    injection Hd as ->. apply list_elem_of_fmap_2.
    by apply lookup_description_Some in Hc' as [? _]. }
  apply NoDup_Permutation; [by apply Hnd..|].
  intros y. split; apply Hsub; done.
Qed.

Lemma foldl_permutation {B} (f : Criterion → B) (g : B → string)
    cs rows1 rows2 :
  (∀ c, g (f c) = description c) →
  NoDup (description <$> cs) →
  (∀ d o, f <$> merged d rows1 o = f <$> merged d rows2 o) →
  f <$> foldl add_row_to_set cs rows1 ≡ₚ f <$> foldl add_row_to_set cs rows2.
Proof.
  intros Hg Hnd Hm.
  apply (lookup_permutation f g); [done|by apply foldl_NoDup..|].
  intros d. by rewrite !lookup_foldl.
Qed.

End row_order.

(** C3, as the code has it.  From a store whose methods have criteria of
    distinct descriptions (the empty store is one, and [add_criterion] keeps
    it so), loading the rows of a file and loading any permutation of them
    both return, and leave stores with, for every method, the same
    descriptions and the same attribute sets.  After either load the level
    of a criterion is the one its description had in the store before, or,
    for a description new to the store, the level of the first loaded row
    that carries it.  So the levels are the same too when the rows that
    share a description share their level. *)
Theorem row_order_irrelevant (fs1 fs2 : filesystem) (self : CriteriaStore)
    (file_path : string) (header1 header2 : list string)
    (rows1 rows2 : list (list string)) :
  unique_descriptions self →
  fs1 !! file_path = Some (header1 :: rows1) →
  fs2 !! file_path = Some (header2 :: rows2) →
  rows1 ≡ₚ rows2 →
  let o1 := load_from_csv fs1 self file_path in
  let o2 := load_from_csv fs2 self file_path in
  value o1 = Returns tt ∧ value o2 = Returns tt
  ∧ same_contents_up_to_level (store o1) (store o2)
  ∧ (levels_agree rows1 → same_contents (store o1) (store o2))
  ∧ (∀ m d,
       level <$> lookup_description d (dict_get (criteria (store o1)) m)
       = level_after d
           (if decide (m = method_of_path file_path) then rows1 else [])
           (lookup_description d (dict_get (criteria self) m)))
  ∧ (∀ m d,
       level <$> lookup_description d (dict_get (criteria (store o2)) m)
       = level_after d
           (if decide (m = method_of_path file_path) then rows2 else [])
           (lookup_description d (dict_get (criteria self) m))).
Proof.
  intros Hu Hf1 Hf2 Hp o1 o2. subst o1 o2.
  rewrite (load_from_csv_rows _ _ _ _ _ Hf1), (load_from_csv_rows _ _ _ _ _ Hf2).
  simpl. rewrite !load_rows_store.
  split; [done|]. split; [done|].
  set (m := method_of_path file_path).
  assert (∀ rows m' d,
            level <$> lookup_description d
                        (dict_get (criteria (foldl (add_row m) self rows)) m')
            = level_after d (if decide (m' = m) then rows else [])
                (lookup_description d (dict_get (criteria self) m')))
    as Hlevel.
  { intros rows m' d. rewrite foldl_add_row_criteria.
    destruct (decide (m' = m)) as [->|Hm].
    - rewrite lookup_foldl. unfold merged, level_after.
      destruct (lookup_description d (dict_get (criteria self) m)); [done|].
      by destruct (first_level d rows).
    - unfold level_after.
      by destruct (lookup_description d (dict_get (criteria self) m')). }
  split; [|split; [|split; [apply Hlevel|apply Hlevel]]].
  - intros m'. unfold get_criteria_for_method. simpl.
    rewrite !foldl_add_row_criteria.
    destruct (decide (m' = m)) as [->|Hm]; [|done].
    rewrite <- !list_fmap_compose.
    apply (foldl_permutation _ fst); [done|apply Hu|].
    intros d o. by apply merged_perm_up_to_level.
  - intros Hagree m'. unfold get_criteria_for_method. simpl.
    rewrite !foldl_add_row_criteria.
    destruct (decide (m' = m)) as [->|Hm]; [|done].
    apply (foldl_permutation _ dict_description); [done|apply Hu|].
    intros d o. by rewrite (merged_perm d rows1 rows2).
Qed.

Lemma unique_descriptions_init : unique_descriptions CriteriaStore_init.
Proof. intros m. unfold dict_get. simpl. rewrite lookup_empty. constructor. Qed.

Lemma unique_descriptions_old_level :
  unique_descriptions Examples.old_level_store.
Proof.
  intros m. unfold Examples.old_level_store.
  rewrite (load_from_csv_rows Examples.old_level_fs _ _ Examples.header
             [["Randomization"; "Old"; "Must Have"; "allocation concealed"]])
    by (vm_compute; reflexivity).
  cbn [load_rows store fst snd].
  rewrite dict_get_add_criterion.
  case_decide; [apply add_to_set_NoDup|]; apply unique_descriptions_init.
Qed.

Lemma row_order_irrelevant_witness :
  same_contents_up_to_level
    (store (load_from_csv Examples.experiments_fs CriteriaStore_init
              "csv/Experiments.csv"))
    (store (load_from_csv Examples.experiments_reversed_fs CriteriaStore_init
              "csv/Experiments.csv"))
  ∧ level <$> lookup_description "Randomization"
                (dict_get
                   (criteria
                      (store (load_from_csv Examples.two_rows_fs
                                Examples.old_level_store "csv/Experiments.csv")))
                   "Experiments")
    = Some "Old"
  ∧ level <$> lookup_description "Randomization"
                (dict_get
                   (criteria
                      (store (load_from_csv Examples.two_rows_swapped_fs
                                Examples.old_level_store "csv/Experiments.csv")))
                   "Experiments")
    = Some "Old".
Proof.
  split.
  - apply (row_order_irrelevant Examples.experiments_fs
             Examples.experiments_reversed_fs CriteriaStore_init
             "csv/Experiments.csv" Examples.header Examples.header
             Examples.experiments_rows (reverse Examples.experiments_rows)).
    + apply unique_descriptions_init.
    + vm_compute. reflexivity.
    + vm_compute. reflexivity.
    + symmetry. apply reverse_Permutation.
  - destruct (row_order_irrelevant Examples.two_rows_fs
                Examples.two_rows_swapped_fs Examples.old_level_store
                "csv/Experiments.csv" Examples.header Examples.header
                Examples.two_rows Examples.two_rows_swapped)
      as (_ & _ & _ & _ & H1 & H2).
    + apply unique_descriptions_old_level.
    + vm_compute. reflexivity.
    + vm_compute. reflexivity.
    + apply perm_swap.
    + split.
      * rewrite (H1 "Experiments" "Randomization"). vm_compute. reflexivity.
      * rewrite (H2 "Experiments" "Randomization"). vm_compute. reflexivity.
Defined.

(** C3 as it is stated fails on the levels: of two rows with one
    description and two levels, the one loaded first gives the level. *)
Lemma level_depends_on_row_order :
  Examples.two_rows ≡ₚ Examples.two_rows_swapped
  ∧ ¬ same_contents
        (store (load_from_csv Examples.two_rows_fs CriteriaStore_init
                  "csv/Experiments.csv"))
        (store (load_from_csv Examples.two_rows_swapped_fs CriteriaStore_init
                  "csv/Experiments.csv")).
Proof.
  split; [apply perm_swap|].
  intros H. specialize (H "Experiments"). vm_compute in H.
  apply Permutation_singleton_inj in H. discriminate.
Qed.

(** * Further properties of the criteria repository *)

(** ** What a load keeps *)

Section load_keeps.
Implicit Types (self : CriteriaStore) (cs : list Criterion) (c : Criterion).
Implicit Types (m d l mo a : string) (row : list string).
Implicit Types (rows : list (list string)).

Lemma load_from_csv_store fs self file_path :
  store (load_from_csv fs self file_path)
  = match fs !! file_path with
    | Some (_ :: rows) => foldl (add_row (method_of_path file_path)) self rows
    | _ => self
    end.
Proof.
  destruct (fs !! file_path) as [[|header rows]|] eqn:Hf.
  - unfold load_from_csv. by rewrite Hf.
  - rewrite (load_from_csv_rows _ _ _ _ _ Hf). simpl. apply load_rows_store.
  - unfold load_from_csv. by rewrite Hf.
Qed.

Lemma add_criterion_unique self m d l mo a :
  unique_descriptions self → unique_descriptions (add_criterion self m d l mo a).
Proof.
  intros Hu m'. rewrite dict_get_add_criterion. case_decide; [|apply Hu].
  apply add_to_set_NoDup, Hu.
Qed.

Lemma foldl_add_row_unique self m rows :
  unique_descriptions self → unique_descriptions (foldl (add_row m) self rows).
Proof.
  intros Hu m'. rewrite foldl_add_row_criteria. case_decide; [|apply Hu].
  apply foldl_NoDup, Hu.
Qed.

End load_keeps.

(** X1.  The criteria of a method keep distinct descriptions: when they are
    distinct in a store, they are distinct after any [add_criterion] and
    after any [load_from_csv], whatever the file holds and whether the load
    returns or raises. *)
Theorem unique_descriptions_kept (fs : filesystem) (self : CriteriaStore)
    (file_path m d l mo a : string) :
  unique_descriptions self →
  unique_descriptions (add_criterion self m d l mo a)
  ∧ unique_descriptions (store (load_from_csv fs self file_path)).
Proof.
  intros Hu. split; [by apply add_criterion_unique|].
  rewrite load_from_csv_store.
  destruct (fs !! file_path) as [[|header rows]|]; try done.
  by apply foldl_add_row_unique.
Qed.

Lemma unique_descriptions_kept_witness :
  unique_descriptions Examples.experiments_store.
Proof.
  apply (unique_descriptions_kept Examples.experiments_fs CriteriaStore_init
           "csv/Experiments.csv" "" "" "" "" "").
  apply unique_descriptions_init.
Defined.

(** X2.  A load never drops a criterion, never changes a level and never
    drops an attribute pair: a description that selected a criterion before
    the load selects one after it, with the same level and with every pair
    it had. *)
Theorem load_only_adds (fs : filesystem) (self : CriteriaStore)
    (file_path m d : string) (c : Criterion) :
  lookup_description d (dict_get (criteria self) m) = Some c →
  ∃ c', lookup_description d
          (dict_get (criteria (store (load_from_csv fs self file_path))) m)
        = Some c'
        ∧ description c' = description c
        ∧ level c' = level c
        ∧ attributes c ⊆ attributes c'.
Proof.
  intros Hc. rewrite load_from_csv_store.
  destruct (fs !! file_path) as [[|header rows]|];
    try (exists c; by repeat split).
  rewrite foldl_add_row_criteria.
  destruct (decide (m = method_of_path file_path)) as [->|Hm];
    [|exists c; by repeat split].
  rewrite lookup_foldl, Hc. simpl. eexists. split; [done|]. simpl.
  repeat split. apply union_subseteq_l.
Qed.

Lemma load_only_adds_witness :
  ∃ c', lookup_description "Randomization"
          (dict_get
             (criteria
                (store (load_from_csv Examples.shared_text_fs
                          Examples.experiments_store "csv/Experiments.csv")))
             "Experiments")
        = Some c'
        ∧ description c' = "Randomization"
        ∧ level c' = "High"
        ∧ attributes Examples.randomization ⊆ attributes c'.
Proof.
  apply (load_only_adds Examples.shared_text_fs Examples.experiments_store
           "csv/Experiments.csv" "Experiments" "Randomization"
           Examples.randomization).
  vm_compute. reflexivity.
Defined.

(** X3.  A load touches one method only, and only if it has something to
    add: the criteria of every method but the one named by the file are as
    they were, and a file none of whose rows has exactly four fields leaves
    the whole store as it was, not even binding its method. *)
Theorem load_frame (fs : filesystem) (self : CriteriaStore)
    (file_path : string) :
  (∀ m, m ≠ method_of_path file_path →
        criteria (store (load_from_csv fs self file_path)) !! m
        = criteria self !! m)
  ∧ (∀ header rows,
       fs !! file_path = Some (header :: rows) →
       Forall (λ row, List.length row ≠ 4) rows →
       store (load_from_csv fs self file_path) = self).
Proof.
  split.
  - intros m Hm. rewrite load_from_csv_store.
    destruct (fs !! file_path) as [[|header rows]|]; try done.
    clear -Hm. revert self. induction rows as [|row rows IH]; intros self; [done|].
    simpl. rewrite IH.
    destruct row as [|d [|l [|mo [|a [|? ?]]]]]; try done.
    simpl. rewrite add_criterion_criteria. by rewrite lookup_insert_ne.
  - intros header rows Hf Hrows. rewrite load_from_csv_store, Hf.
    clear Hf. induction Hrows as [|row rows Hrow _ IH]; [done|].
    simpl. destruct row as [|d [|l [|mo [|a [|? ?]]]]]; try done.
Qed.

Lemma load_frame_witness :
  criteria (store (load_from_csv Examples.experiments_fs
                     Examples.shared_text_store
                     "csv/Experiments.csv")) !! "Surveys"
  = criteria Examples.shared_text_store !! "Surveys"
  ∧ store (load_from_csv MoreExamples.only_malformed_fs
             Examples.experiments_store "csv/Experiments.csv")
    = Examples.experiments_store.
Proof.
  split.
  - apply (proj1 (load_frame Examples.experiments_fs
                    Examples.shared_text_store "csv/Experiments.csv")).
    vm_compute. discriminate.
  - apply (proj2 (load_frame MoreExamples.only_malformed_fs
                    Examples.experiments_store "csv/Experiments.csv")
             Examples.header
             [Examples.short_row; []; Examples.long_row]).
    + vm_compute. reflexivity.
    + repeat constructor; simpl; lia.
Defined.

(** X4.  What a file makes of a fresh store, description by description.
    A description selects a criterion exactly when some row of four fields
    carries it; the level of that criterion is the level of the first such
    row, and its attribute pairs are exactly the (moscow, attribute) pairs
    of the rows that carry the description. *)
Theorem loaded_criterion (fs : filesystem) (file_path : string)
    (header : list string) (rows : list (list string)) (d : string) :
  fs !! file_path = Some (header :: rows) →
  match lookup_description d
          (dict_get
             (criteria (store (load_from_csv fs CriteriaStore_init file_path)))
             (method_of_path file_path)) with
  | Some c =>
      description c = d
      ∧ first_level d rows = Some (level c)
      ∧ ∀ mo a, (mo, a) ∈ attributes c ↔ ∃ l, [d; l; mo; a] ∈ rows
  | None => ∀ l mo a, ¬ ([d; l; mo; a] ∈ rows)
  end.
Proof.
  intros Hf. rewrite load_from_csv_store, Hf.
  rewrite foldl_add_row_criteria, decide_True by done.
  rewrite lookup_foldl. unfold dict_get, CriteriaStore_init. simpl.
  rewrite lookup_empty. simpl. unfold merged.
  destruct (first_level d rows) as [l|] eqn:Hl; simpl.
  - split; [done|]. split; [done|]. intros mo a. apply elem_of_attributes_in.
  - intros l mo a. by apply first_level_None.
Qed.

Lemma loaded_criterion_witness :
  description Examples.randomization = "Randomization"
  ∧ first_level "Randomization" Examples.experiments_rows
    = Some (level Examples.randomization)
  ∧ ∀ mo a, (mo, a) ∈ attributes Examples.randomization
            ↔ ∃ l, ["Randomization"; l; mo; a] ∈ Examples.experiments_rows.
Proof.
  apply (loaded_criterion Examples.experiments_fs "csv/Experiments.csv"
           Examples.header Examples.experiments_rows "Randomization").
  vm_compute. reflexivity.
Defined.

(** ** The caller's loop over the criteria of a method *)

Section caller_loop.
Implicit Types (self : CriteriaStore) (cs : list Criterion) (c : Criterion).

Lemma to_dict_inj c1 c2 : to_dict c1 = to_dict c2 → c1 = c2.
Proof.
  destruct c1 as [d1 l1 s1], c2 as [d2 l2 s2]. unfold to_dict. simpl.
  intros [= -> -> Hs]. f_equal.
  apply set_eq. intros x. by rewrite <- !elem_of_elements, Hs.
Qed.

Lemma unique_descriptions_experiments :
  unique_descriptions Examples.experiments_store.
Proof.
  unfold Examples.experiments_store. rewrite load_from_csv_store.
  replace (Examples.experiments_fs !! "csv/Experiments.csv")
    with (Some (Examples.header :: Examples.experiments_rows))
    by (vm_compute; reflexivity).
  apply foldl_add_row_unique, unique_descriptions_init.
Qed.

End caller_loop.

(** X5.  The loop of the classifier asks a prompt for the description of
    every dictionary [get_criteria_for_method] returned.  On a store with
    distinct descriptions each such call finds the very criterion the
    dictionary was made from, so it returns a prompt built from that
    criterion, never the "No criterion found" string, and leaves the store
    as it is. *)
Theorem prompt_for_every_listed_criterion (self : CriteriaStore) (m : string)
    (r : CriterionDict) :
  unique_descriptions self →
  r ∈ fst (get_criteria_for_method self m) →
  ∃ c, to_dict c = r
       ∧ c ∈ dict_get (criteria self) m
       ∧ generate_prompt_for_criterion self m (dict_description r)
         = (prompt_heading (dict_description r)
              ++ must_have_section (must_have_of c)
              ++ substitution_paragraph (other_criteria_of c)
              ++ closing_instruction, self).
Proof.
  intros Hu (c & -> & Hc)%list_elem_of_fmap. exists c.
  split; [done|]. split; [done|].
  apply generate_prompt_found. simpl. by apply lookup_description_elem.
Qed.

Lemma prompt_for_every_listed_criterion_witness :
  ∃ c, to_dict c = to_dict Examples.randomization
       ∧ c ∈ dict_get (criteria Examples.experiments_store) "Experiments"
       ∧ generate_prompt_for_criterion Examples.experiments_store
           "Experiments" "Randomization"
         = (prompt_heading "Randomization"
              ++ must_have_section (must_have_of c)
              ++ substitution_paragraph (other_criteria_of c)
              ++ closing_instruction, Examples.experiments_store).
Proof.
  apply (prompt_for_every_listed_criterion Examples.experiments_store
           "Experiments" (to_dict Examples.randomization)).
  - apply unique_descriptions_experiments.
  - vm_compute. left.
Defined.

(** X6.  [to_dict] loses nothing and repeats nothing: its list of attributes
    holds each pair of the criterion exactly once, and two criteria with the
    same dictionary are the same criterion. *)
Theorem to_dict_faithful (c : Criterion) :
  dict_description (to_dict c) = description c
  ∧ dict_level (to_dict c) = level c
  ∧ NoDup (dict_attributes (to_dict c))
  ∧ (∀ p, p ∈ dict_attributes (to_dict c) ↔ p ∈ attributes c)
  ∧ ∀ c', to_dict c' = to_dict c → c' = c.
Proof.
  unfold to_dict. simpl.
  split; [done|]. split; [done|]. split; [apply NoDup_elements|].
  split; [intros p; apply elem_of_elements|].
  intros c'. apply to_dict_inj.
Qed.

(** ** From a method to its file and back *)

Section paths.
Implicit Types (s p m : string) (ch c : ascii) (i r : Z).

Lemma append_cons c s1 s2 : String c s1 ++ s2 = String c (s1 ++ s2).
Proof. reflexivity. Qed.

Lemma append_nil_l s : "" ++ s = s.
Proof. reflexivity. Qed.

Lemma length_append s1 s2 :
  String.length (s1 ++ s2) = (String.length s1 + String.length s2)%nat.
Proof.
  induction s1 as [|c s1 IH]; [done|]. rewrite append_cons. simpl. by rewrite IH.
Qed.

Lemma contains_append ch s1 s2 :
  contains ch (s1 ++ s2) = contains ch s1 || contains ch s2.
Proof.
  induction s1 as [|c s1 IH]; [done|]. rewrite append_cons. simpl.
  rewrite IH. by destruct (Ascii.eqb c ch).
Qed.

Lemma substring_0_length s : substring 0 (String.length s) s = s.
Proof. induction s as [|c s IH]; [done|]. simpl. by rewrite IH. Qed.

Lemma take_append s1 s2 : Str.take (String.length s1) (s1 ++ s2) = s1.
Proof.
  unfold Str.take. induction s1 as [|c s1 IH]; simpl.
  - by destruct s2.
  - by rewrite IH.
Qed.

Lemma substring_append n k s1 s2 :
  n = String.length s1 → substring n k (s1 ++ s2) = substring 0 k s2.
Proof.
  intros ->. induction s1 as [|c s1 IH]; [done|].
  rewrite append_cons. simpl. apply IH.
Qed.

Lemma drop_append s1 s2 : Str.drop (String.length s1) (s1 ++ s2) = s2.
Proof.
  unfold Str.drop. rewrite substring_append by done.
  rewrite length_append.
  replace (String.length s1 + String.length s2 - String.length s1)%nat
    with (String.length s2) by lia.
  apply substring_0_length.
Qed.

Lemma contains_take ch k s :
  contains ch (Str.take k s) = true → contains ch s = true.
Proof.
  unfold Str.take. revert k. induction s as [|c s IH]; intros k.
  - by destruct k.
  - destruct k as [|k]; [done|]. simpl.
    destruct (Ascii.eqb c ch); [done|]. apply IH.
Qed.

Lemma rfind_from_bounds i ch s :
  (0 <= i)%Z →
  Str.rfind_from i ch s = (-1)%Z ∨ (i <= Str.rfind_from i ch s)%Z.
Proof.
  revert i. induction s as [|c s IH]; intros i Hi; simpl; [by left|].
  destruct (IH (i + 1)%Z) as [Hr|Hr]; [lia|..].
  - rewrite Hr. simpl. destruct (Ascii.eqb c ch); [right; lia|by left].
  - destruct (Z.leb_spec 0 (Str.rfind_from (i + 1) ch s)); [right; lia|lia].
Qed.

Lemma rfind_from_absent i ch s :
  contains ch s = false → Str.rfind_from i ch s = (-1)%Z.
Proof.
  revert i. induction s as [|c s IH]; intros i; simpl; [done|].
  intros [Hc Hs]%orb_false_elim. by rewrite IH, Hc.
Qed.

Lemma rfind_from_present i ch s :
  (0 <= i)%Z → Str.rfind_from i ch s = (-1)%Z → contains ch s = false.
Proof.
  revert i. induction s as [|c s IH]; intros i Hi; simpl; [done|].
  destruct (rfind_from_bounds (i + 1) ch s) as [Hr|Hr]; [lia|..].
  - rewrite Hr. simpl. destruct (Ascii.eqb c ch); [lia|].
    intros _. simpl. by apply (IH (i + 1)%Z); [lia|].
  - destruct (Z.leb_spec 0 (Str.rfind_from (i + 1) ch s)); lia.
Qed.

(** The last occurrence: [ch] stands at the index found and nowhere after. *)
Lemma rfind_from_last i ch s1 s2 :
  (0 <= i)%Z → contains ch s2 = false →
  Str.rfind_from i ch (s1 ++ String ch s2) = (i + Z.of_nat (String.length s1))%Z.
Proof.
  revert i. induction s1 as [|c s1 IH]; intros i Hi Hs2.
  - rewrite append_nil_l. simpl. rewrite rfind_from_absent by done. simpl.
    rewrite Ascii.eqb_refl. lia.
  - rewrite append_cons. simpl Str.rfind_from. rewrite IH by (done || lia).
    destruct (Z.leb_spec 0 (i + 1 + Z.of_nat (String.length s1))); [|lia].
    simpl String.length. lia.
Qed.

Lemma rfind_from_split i ch s :
  (0 <= i)%Z → Str.rfind_from i ch s ≠ (-1)%Z →
  ∃ s1 s2, s = s1 ++ String ch s2 ∧ contains ch s2 = false.
Proof.
  revert i. induction s as [|c s IH]; intros i Hi; simpl; [done|].
  destruct (rfind_from_bounds (i + 1) ch s) as [Hr|Hr]; [lia|..].
  - rewrite Hr. simpl. destruct (Ascii.eqb_spec c ch) as [->|]; [|done].
    intros _. exists "", s. split; [done|].
    by apply (rfind_from_present (i + 1)%Z); [lia|].
  - intros _. destruct (IH (i + 1)%Z) as (s1 & s2 & -> & Hs2); [lia..|].
    by exists (String c s1), s2.
Qed.

Lemma basename_after_sep s1 s2 :
  contains "/" s2 = false → OsPath.basename (s1 ++ String "/" s2) = s2.
Proof.
  intros Hs2. unfold OsPath.basename, Str.rfind.
  rewrite rfind_from_last by done.
  replace (Z.to_nat (0 + Z.of_nat (String.length s1) + 1))
    with (String.length (s1 ++ "/")) by (rewrite length_append; simpl; lia).
  replace (s1 ++ String "/" s2) with ((s1 ++ "/") ++ s2)
    by (by rewrite append_assoc).
  apply drop_append.
Qed.

Lemma basename_no_sep p :
  contains "/" p = false → OsPath.basename p = p.
Proof.
  intros Hp. unfold OsPath.basename, Str.rfind.
  rewrite rfind_from_absent by done. simpl.
  apply (drop_append "" p).
Qed.

Lemma basename_clean p : contains "/" (OsPath.basename p) = false.
Proof.
  destruct (contains "/" p) eqn:Hp; [|by rewrite basename_no_sep].
  destruct (rfind_from_split 0 "/" p) as (s1 & s2 & -> & Hs2); [done|..].
  - intros Hr. apply rfind_from_present in Hr; [congruence|done].
  - by rewrite basename_after_sep.
Qed.

Lemma splitext_scan_Some n k dotIndex p (res : string * string) :
  OsPath.splitext_scan n k dotIndex p = Some res →
  res = (Str.take dotIndex p, Str.drop dotIndex p).
Proof.
  revert k. induction n as [|n IH]; intros k; simpl; [done|].
  destruct (negb _); [by intros [= <-]|apply IH].
Qed.

Lemma splitext_fst p :
  fst (OsPath.splitext p) = p
  ∨ ∃ k, fst (OsPath.splitext p) = Str.take k p.
Proof.
  unfold OsPath.splitext. destruct (_ <? _)%Z; [|by left].
  destruct (OsPath.splitext_scan _ _ _ _) as [res|] eqn:Hr; [|by left].
  apply splitext_scan_Some in Hr as ->. right. by eexists.
Qed.

(** The method a file is loaded under never has a separator in it. *)
Lemma method_of_path_clean p : contains "/" (method_of_path p) = false.
Proof.
  unfold method_of_path.
  pose proof (basename_clean p) as Hb.
  destruct (splitext_fst (OsPath.basename p)) as [->|[k ->]]; [done|].
  destruct (contains "/" (Str.take k (OsPath.basename p))) eqn:Hk; [|done].
  apply contains_take in Hk. congruence.
Qed.

Lemma substring_one_at s1 c s2 :
  substring (String.length s1) 1 (s1 ++ String c s2) = String c "".
Proof.
  rewrite substring_append by done. simpl. by destruct s2.
Qed.

(** The scan over the name [m] of [pre ++ m ++ rest], from its first
    character on. *)
Lemma splitext_scan_name pre m rest dotIndex :
  OsPath.splitext_scan (String.length m) (String.length pre) dotIndex
    (pre ++ m ++ rest)
  = if all_dots m then None
    else Some (Str.take dotIndex (pre ++ m ++ rest),
               Str.drop dotIndex (pre ++ m ++ rest)).
Proof.
  revert pre. induction m as [|c m IH]; intros pre; [done|].
  simpl OsPath.splitext_scan. rewrite append_cons, substring_one_at.
  simpl all_dots. unfold String.eqb at 1. fold String.eqb.
  destruct (Ascii.eqb_spec c ".") as [->|Hc]; simpl.
  - specialize (IH (pre ++ ".")).
    rewrite length_append in IH. simpl in IH.
    replace (String.length pre + 1)%nat with (S (String.length pre)) in IH by lia.
    by rewrite !append_assoc in IH.
  - done.
Qed.

Lemma splitext_csv m :
  contains "/" m = false →
  OsPath.splitext (m ++ ".csv")
  = if all_dots m then (m ++ ".csv", "") else (m, ".csv").
Proof.
  intros Hm. unfold OsPath.splitext, Str.rfind.
  rewrite (rfind_from_absent 0 "/") by (by rewrite contains_append, Hm).
  replace (m ++ ".csv") with (m ++ String "." "csv") by done.
  rewrite rfind_from_last by done.
  destruct (Z.ltb_spec (-1) (0 + Z.of_nat (String.length m))); [|lia].
  replace (Z.to_nat (-1 + 1)) with (String.length "") by done.
  replace (Z.to_nat (0 + Z.of_nat (String.length m))) with (String.length m) by lia.
  replace (String.length m - String.length "")%nat with (String.length m)
    by (simpl; lia).
  pose proof (splitext_scan_name "" m ".csv" (String.length m)) as Hs.
  rewrite append_nil_l in Hs. rewrite Hs.
  destruct (all_dots m); [done|].
  by rewrite take_append, drop_append.
Qed.

Lemma join_csv m :
  contains "/" m = false →
  OsPath.join "csv/" (m ++ ".csv") = "csv/" ++ m ++ ".csv".
Proof.
  intros Hm. apply join_criteria_path.
  destruct m as [|c m]; [done|]. simpl in *.
  by apply orb_false_elim in Hm as [-> _].
Qed.

Lemma method_of_criteria_path m :
  contains "/" m = false →
  method_of_path (OsPath.join "csv/" (m ++ ".csv"))
  = if all_dots m then m ++ ".csv" else m.
Proof.
  intros Hm. rewrite join_csv by done. unfold method_of_path.
  replace ("csv/" ++ m ++ ".csv") with ("csv" ++ String "/" (m ++ ".csv")) by done.
  rewrite basename_after_sep by (by rewrite contains_append, Hm).
  rewrite splitext_csv by done. by destruct (all_dots m).
Qed.

End paths.

(** X7.  [is_criteria_available] looks for the file of a method and
    [load_from_csv] takes the method back from the file's name.  The method
    that comes back is the one that went in exactly when the name has no
    "/" in it and is not made of full stops only (the empty name is). *)
Theorem method_round_trip (m : string) :
  method_of_path (OsPath.join "csv/" (m ++ ".csv")) = m
  ↔ contains "/" m = false ∧ all_dots m = false.
Proof.
  split.
  - intros Heq. assert (contains "/" m = false) as Hm.
    { rewrite <- Heq. apply method_of_path_clean. }
    split; [done|]. rewrite method_of_criteria_path in Heq by done.
    destruct (all_dots m); [|done].
    apply (f_equal String.length) in Heq. rewrite length_append in Heq.
    simpl in Heq. lia.
  - intros [Hm Hd]. by rewrite method_of_criteria_path, Hd.
Qed.

(** ** What the classifier gets from a fresh store *)

Section fresh_store.
Implicit Types (cs : list Criterion) (c : Criterion) (d : string).
Implicit Types (rows : list (list string)).

Lemma elem_of_descriptions d cs :
  d ∈ description <$> cs ↔ is_Some (lookup_description d cs).
Proof.
  split.
  - intros (c & -> & Hc)%list_elem_of_fmap.
    destruct (lookup_description (description c) cs) eqn:Hl; [done|].
    by eapply lookup_description_None in Hl.
  - intros [c [Hc <-]%lookup_description_Some]. by apply list_elem_of_fmap_2.
Qed.

Lemma first_level_is_Some d rows :
  is_Some (first_level d rows) ↔ ∃ l mo a, [d; l; mo; a] ∈ rows.
Proof.
  split.
  - intros [l (mo & a & H)%first_level_Some]. by exists l, mo, a.
  - intros (l & mo & a & H). destruct (first_level d rows) eqn:Hl; [done|].
    by eapply first_level_None in Hl.
Qed.

Lemma is_criteria_available_loaded (fs : filesystem) self m header rows :
  fs !! OsPath.join "csv/" (m ++ ".csv") = Some (header :: rows) →
  let o := is_criteria_available fs self m in
  value o
  = Returns
      (Some (to_dict <$>
               dict_get
                 (criteria
                    (foldl (add_row (method_of_path
                                       (OsPath.join "csv/" (m ++ ".csv"))))
                           self rows)) m))
  ∧ store o
    = foldl (add_row (method_of_path (OsPath.join "csv/" (m ++ ".csv"))))
            self rows.
Proof.
  intros Hf. unfold is_criteria_available.
  rewrite (exists_true _ _ _ Hf), (load_from_csv_rows _ _ _ _ _ Hf).
  simpl. by rewrite load_rows_store.
Qed.

End fresh_store.

(** X8.  For a method name without "/" that is not made of full stops only,
    and a criteria file with a header, the classifier's call on a fresh
    store returns one dictionary for each description that a row of four
    fields carries: the descriptions in the list are distinct and are
    exactly those of such rows.  So the list is empty exactly when the file
    has no row of four fields. *)
Theorem criteria_of_fresh_store (fs : filesystem) (m : string)
    (header : list string) (rows : list (list string)) :
  contains "/" m = false → all_dots m = false →
  fs !! criteria_path m = Some (header :: rows) →
  ∃ l, value (is_criteria_available fs CriteriaStore_init m) = Returns (Some l)
       ∧ NoDup (dict_description <$> l)
       ∧ (∀ d, d ∈ dict_description <$> l
               ↔ ∃ lv mo a, [d; lv; mo; a] ∈ rows)
       ∧ (l = [] ↔ Forall (λ row, List.length row ≠ 4) rows).
Proof.
  intros Hm Hd Hf. pose proof (join_csv m Hm) as Hj.
  change ("csv/" ++ m ++ ".csv") with (criteria_path m) in Hj.
  rewrite <- Hj in Hf.
  destruct (is_criteria_available_loaded fs CriteriaStore_init m header rows Hf)
    as [Hv _].
  rewrite (proj2 (method_round_trip m)) in Hv by done.
  rewrite foldl_add_row_criteria, decide_True in Hv by done.
  replace (dict_get (criteria CriteriaStore_init) m) with (@nil Criterion) in Hv
    by (unfold dict_get; simpl; by rewrite lookup_empty).
  eexists. split; [exact Hv|].
  set (cs := foldl add_row_to_set [] rows).
  assert (dict_description <$> (to_dict <$> cs) = description <$> cs) as Hdesc.
  { rewrite <- list_fmap_compose. by apply list_fmap_ext. }
  rewrite Hdesc.
  assert (∀ d, d ∈ description <$> cs ↔ ∃ lv mo a, [d; lv; mo; a] ∈ rows) as Hiff.
  { intros d. rewrite elem_of_descriptions. unfold cs.
    rewrite lookup_foldl. simpl. rewrite <- first_level_is_Some.
    destruct (first_level d rows); split; intros [? ?]; done. }
  split; [apply foldl_NoDup; constructor|]. split; [done|].
  clearbody cs.
  assert (to_dict <$> cs = [] ↔ cs = []) as ->
    by (split; [apply fmap_nil_inv|by intros ->]).
  split.
  - intros ->. apply Forall_forall. intros row Hrow Hlen.
    destruct row as [|d [|lv [|mo [|a [|? ?]]]]]; try done.
    assert (d ∈ description <$> []) as Hin by (apply Hiff; eauto).
    by apply elem_of_nil in Hin.
  - intros Hrows. destruct cs as [|c cs']; [done|].
    assert (description c ∈ description <$> c :: cs') as Hin by left.
    apply Hiff in Hin as (lv & mo & a & Hin).
    rewrite Forall_forall in Hrows. by destruct (Hrows _ Hin).
Qed.

Lemma criteria_of_fresh_store_witness :
  ∃ l, value (is_criteria_available Examples.experiments_fs
                CriteriaStore_init "Experiments") = Returns (Some l)
       ∧ NoDup (dict_description <$> l)
       ∧ (∀ d, d ∈ dict_description <$> l
               ↔ ∃ lv mo a, [d; lv; mo; a] ∈ Examples.experiments_rows)
       ∧ (l = [] ↔ Forall (λ row, List.length row ≠ 4)
                          Examples.experiments_rows).
Proof.
  apply (criteria_of_fresh_store Examples.experiments_fs "Experiments"
           Examples.header Examples.experiments_rows).
  - reflexivity.
  - reflexivity.
  - vm_compute. reflexivity.
Defined.

(** X9.  For a method name with "/" in it, or made of full stops only, the
    file the call finds is loaded under another method than the one asked
    for: on a fresh store the call returns the empty list, whatever rows the
    file holds. *)
Theorem no_criteria_for_odd_names (fs : filesystem) (m : string)
    (header : list string) (rows : list (list string)) :
  contains "/" m = true ∨ all_dots m = true →
  fs !! OsPath.join "csv/" (m ++ ".csv") = Some (header :: rows) →
  value (is_criteria_available fs CriteriaStore_init m) = Returns (Some []).
Proof.
  intros Hodd Hf.
  assert (m ≠ method_of_path (OsPath.join "csv/" (m ++ ".csv"))) as Hne.
  { intros Heq. symmetry in Heq. apply method_round_trip in Heq as [??].
    destruct Hodd; congruence. }
  destruct (is_criteria_available_loaded fs CriteriaStore_init m header rows Hf)
    as [-> _].
  rewrite foldl_add_row_criteria, decide_False by done.
  unfold dict_get. simpl. by rewrite lookup_empty.
Qed.

Lemma no_criteria_for_odd_names_witness :
  value (is_criteria_available Examples.outside_fs CriteriaStore_init
           "/Experiments") = Returns (Some []).
Proof.
  apply (no_criteria_for_odd_names Examples.outside_fs "/Experiments"
           Examples.header Examples.experiments_rows).
  - left. reflexivity.
  - vm_compute. reflexivity.
Defined.

(** * Articles *)

Section articles.
Context {json : Type}.
Implicit Types (a : Articles.Article json) (data : Articles.ArticleDict json).
Implicit Types (f : string).

Lemma article_eq a1 a2 :
  Articles.name a1 = Articles.name a2 →
  Articles.research_method a1 = Articles.research_method a2 →
  Articles.doi a1 = Articles.doi a2 →
  Articles.articleQuality a1 = Articles.articleQuality a2 →
  Articles.rmQuality a1 = Articles.rmQuality a2 →
  Articles.filenames a1 = Articles.filenames a2 →
  a1 = a2.
Proof. destruct a1, a2. simpl. congruence. Qed.

Lemma init_filenames (n rm d : string) (aq rq : json) (s : gset string) :
  Articles.filenames (Articles.init n rm d aq rq (Some s)) = s.
Proof. unfold Articles.init. simpl. by case_decide. Qed.

End articles.

(** X10.  An article survives the trip to a Firestore dictionary and back:
    [from_dict (to_dict a)] is [a], whatever its fields and file names. *)
Theorem article_round_trip {json : Type} (a : Articles.Article json) :
  Articles.from_dict (Articles.to_dict a) = a.
Proof.
  apply article_eq; try done.
  unfold Articles.from_dict. rewrite init_filenames. simpl.
  apply list_to_set_elements_L.
Qed.

(** X11.  The other way round only the file names may change: a dictionary
    read by [from_dict] and written again by [to_dict] has the same five
    other fields, and its list of file names holds the names of the list
    read, each of them once. *)
Theorem dict_round_trip {json : Type} (data : Articles.ArticleDict json) :
  let data' := Articles.to_dict (Articles.from_dict data) in
  Articles.dict_name data' = Articles.dict_name data
  ∧ Articles.dict_research_method data' = Articles.dict_research_method data
  ∧ Articles.dict_doi data' = Articles.dict_doi data
  ∧ Articles.dict_articleQuality data' = Articles.dict_articleQuality data
  ∧ Articles.dict_rmQuality data' = Articles.dict_rmQuality data
  ∧ NoDup (Articles.dict_filenames data')
  ∧ (∀ f, f ∈ Articles.dict_filenames data' ↔ f ∈ Articles.dict_filenames data)
  ∧ (NoDup (Articles.dict_filenames data) →
     Articles.dict_filenames data' ≡ₚ Articles.dict_filenames data).
Proof.
  intros data'. subst data'. unfold Articles.to_dict, Articles.from_dict.
  rewrite !init_filenames. simpl.
  repeat (split; [done|]).
  split; [apply NoDup_elements|].
  split.
  - intros f. by rewrite elem_of_elements, elem_of_list_to_set.
  - intros Hnd. by apply elements_list_to_set.
Qed.

(** X12.  File names behave as a set.  Adding a name makes it present and
    adding it again changes nothing; removing a name makes it absent, and
    removing a name that is not there changes nothing and fails nowhere; a
    name that was not there is gone again after adding and removing it. *)
Theorem filenames_add_remove {json : Type} (a : Articles.Article json)
    (f : string) :
  f ∈ Articles.filenames (Articles.add_filename a f)
  ∧ Articles.add_filename (Articles.add_filename a f) f
    = Articles.add_filename a f
  ∧ ¬ (f ∈ Articles.filenames (Articles.remove_filename a f))
  ∧ (¬ (f ∈ Articles.filenames a) →
     Articles.remove_filename a f = a
     ∧ Articles.remove_filename (Articles.add_filename a f) f = a)
  ∧ (f ∈ Articles.filenames a → Articles.add_filename a f = a).
Proof.
  split; [simpl; apply elem_of_union_r; by apply elem_of_singleton|].
  split.
  { apply article_eq; try done. simpl.
    by rewrite <- (assoc_L (∪)), (idemp_L (∪)). }
  split.
  { simpl. rewrite elem_of_difference, elem_of_singleton. by intros [_ []]. }
  split.
  - intros Hf. split; apply article_eq; try done; simpl.
    + apply difference_disjoint_L. by apply disjoint_singleton_r.
    + rewrite difference_union_distr_l_L, difference_diag_L, union_empty_r_L.
      apply difference_disjoint_L. by apply disjoint_singleton_r.
  - intros Hf. apply article_eq; try done. simpl.
    rewrite (comm_L (∪)).
    apply subseteq_union_1_L. by apply singleton_subseteq_l.
Qed.

Lemma filenames_add_remove_witness :
  Articles.remove_filename (Articles.add_filename Articles.sample "copy.pdf")
    "copy.pdf"
  = Articles.sample
  ∧ Articles.add_filename Articles.sample "study.pdf" = Articles.sample.
Proof.
  split.
  - destruct (filenames_add_remove Articles.sample "copy.pdf")
      as (_ & _ & _ & H & _).
    apply H. apply (bool_decide_unpack _). vm_compute. exact I.
  - destruct (filenames_add_remove Articles.sample "study.pdf")
      as (_ & _ & _ & _ & H).
    apply H. apply (bool_decide_unpack _). vm_compute. exact I.
Defined.

(** * The answer read from the assistant *)

Section skipping.
Import Answer.
Implicit Types (s r b p w : string) (c : ascii) (n m k : nat).

Lemma append_nil_r s : s ++ "" = s.
Proof.
  induction s as [|c s IH]; [done|]. rewrite append_cons. by rewrite IH.
Qed.

Lemma reverse_append s1 s2 : reverse (s1 ++ s2) = reverse s2 ++ reverse s1.
Proof.
  induction s1 as [|c s1 IH].
  - by rewrite append_nil_l, append_nil_r.
  - rewrite append_cons. simpl reverse. by rewrite IH, append_assoc.
Qed.

Lemma reverse_involutive s : reverse (reverse s) = s.
Proof.
  induction s as [|c s IH]; [done|].
  simpl reverse. by rewrite reverse_append, IH.
Qed.

Lemma length_reverse s : String.length (reverse s) = String.length s.
Proof.
  induction s as [|c s IH]; [done|].
  simpl reverse. rewrite length_append, IH. simpl. lia.
Qed.

Lemma strip_prefix_length p s s' :
  strip_prefix p s = Some s' →
  String.length s = (String.length p + String.length s')%nat.
Proof.
  revert s. induction p as [|a p IH]; intros s; simpl.
  - by intros [= ->].
  - destruct s as [|x s]; [done|]. destruct (Ascii.eqb a x); [|done].
    intros H%IH. simpl. lia.
Qed.

Lemma strip_prefix_app p r r' b :
  strip_prefix p r = Some r' → strip_prefix p (r ++ b) = Some (r' ++ b).
Proof.
  revert r. induction p as [|a p IH]; intros r; simpl.
  - by intros [= ->].
  - destruct r as [|x r]; [done|]. rewrite append_cons.
    destruct (Ascii.eqb a x); [apply IH|done].
Qed.

Lemma strip_prefix_high p r b :
  high p = true → ascii_head b = true →
  strip_prefix p r = None → strip_prefix p (r ++ b) = None.
Proof.
  intros Hp Hb. revert r Hp. induction p as [|a p IH]; intros r Hp; [done|].
  change (high (String a p)) with ((128 <=? nat_of_ascii a)%nat && high p) in Hp.
  apply andb_prop in Hp as [Ha Hp].
  destruct r as [|x r].
  - intros _. rewrite append_nil_l. destruct b as [|y b]; [done|].
    change (ascii_head (String y b)) with (nat_of_ascii y <? 128)%nat in Hb.
    cbn [strip_prefix]. destruct (Ascii.eqb_spec a y) as [->|]; [|done].
    apply Nat.leb_le in Ha. apply Nat.ltb_lt in Hb. lia.
  - rewrite append_cons. cbn [strip_prefix].
    destruct (Ascii.eqb a x); [by apply IH|done].
Qed.

Lemma strip_prefix_tail p r b :
  high_tail p = true → ascii_head b = true → r ≠ "" →
  strip_prefix p r = None → strip_prefix p (r ++ b) = None.
Proof.
  destruct p as [|a p]; [done|]. destruct r as [|x r]; [done|].
  cbn [high_tail strip_prefix]. intros Hp Hb _. rewrite append_cons.
  cbn [strip_prefix].
  destruct (Ascii.eqb a x); [by apply strip_prefix_high|done].
Qed.

Context (pats : list string).
Context (Hpats : forallb high_tail pats = true).

Lemma skip_any_nil : skip_any pats "" = None.
Proof using Hpats.
  induction pats as [|p ps IH]; [done|].
  simpl in *. apply andb_prop in Hpats as [Hp Hps].
  destruct p; [done|]. by apply IH.
Qed.

Lemma skip_any_shorter s s' :
  skip_any pats s = Some s' → (String.length s' < String.length s)%nat.
Proof using Hpats.
  induction pats as [|p ps IH]; [done|].
  simpl in *. apply andb_prop in Hpats as [Hp Hps].
  destruct (strip_prefix p s) as [s0|] eqn:Hs; [|by apply IH].
  intros [= ->]. apply strip_prefix_length in Hs.
  destruct p; [done|]. simpl in Hs. lia.
Qed.

Lemma skip_any_app r b :
  r ≠ "" → ascii_head b = true →
  skip_any pats (r ++ b) = (λ r', r' ++ b) <$> skip_any pats r.
Proof using Hpats.
  intros Hr Hb. induction pats as [|p ps IH]; [done|].
  simpl in *. apply andb_prop in Hpats as [Hp Hps].
  destruct (strip_prefix p r) as [r0|] eqn:Hs.
  - by rewrite (strip_prefix_app _ _ _ _ Hs).
  - rewrite strip_prefix_tail by done. by apply IH.
Qed.

Lemma skip_all_S n s :
  skip_all pats (S n) s
  = match skip_any pats s with
    | Some s' => skip_all pats n s'
    | None => s
    end.
Proof. reflexivity. Qed.

Lemma skip_all_nil n : skip_all pats n "" = "".
Proof using Hpats. destruct n; [done|]. simpl. by rewrite skip_any_nil. Qed.

Lemma skip_all_fuel n m s :
  (String.length s <= n)%nat → (String.length s <= m)%nat →
  skip_all pats n s = skip_all pats m s.
Proof using Hpats.
  revert m s. induction n as [|n IH]; intros m s Hn Hm.
  - destruct s; [|simpl in Hn; lia]. by rewrite !skip_all_nil.
  - destruct m as [|m].
    + destruct s; [|simpl in Hm; lia]. by rewrite !skip_all_nil.
    + simpl. destruct (skip_any pats s) as [s'|] eqn:Hs; [|done].
      apply skip_any_shorter in Hs. apply IH; lia.
Qed.

(** Nothing is left to skip at the head of what [skip_all] returns. *)
Lemma skip_all_done n s :
  (String.length s <= n)%nat → skip_any pats (skip_all pats n s) = None.
Proof using Hpats.
  revert s. induction n as [|n IH]; intros s Hn.
  - destruct s; [|simpl in Hn; lia]. apply skip_any_nil.
  - simpl. destruct (skip_any pats s) as [s'|] eqn:Hs; [|done].
    apply IH. apply skip_any_shorter in Hs. lia.
Qed.

(** Skipping at the head of [r ++ b], where [b] begins in ASCII: either all
    of [r] goes and the skipping goes on in [b], or it stops inside [r]. *)
Lemma skip_all_app n k r b :
  ascii_head b = true →
  (String.length r <= n)%nat → (String.length b <= k)%nat →
  skip_all pats (n + k) (r ++ b)
  = if decide (skip_all pats n r = "") then skip_all pats k b
    else skip_all pats n r ++ b.
Proof using Hpats.
  intros Hb. revert r. induction n as [|n IH]; intros r Hn Hk.
  - destruct r; [|simpl in Hn; lia]. by case_decide.
  - destruct r as [|x r].
    + rewrite skip_all_nil. case_decide; [|done]. rewrite append_nil_l.
      apply skip_all_fuel; lia.
    + cbn [skip_all Nat.add]. rewrite skip_any_app by done.
      destruct (skip_any pats (String x r)) as [r'|] eqn:Hs; cbn [fmap option_fmap option_map].
      * apply IH; [|done]. apply skip_any_shorter in Hs.
        cbn [String.length] in Hn, Hs. lia.
      * by case_decide.
Qed.

Context (Hascii : ∀ c s, (nat_of_ascii c <? 128)%nat = true →
           skip_any pats (String c s)
           = if is_ascii_space c then Some s else None).

Lemma is_ascii_space_ascii c :
  is_ascii_space c = true → (nat_of_ascii c <? 128)%nat = true.
Proof.
  unfold is_ascii_space. intros H. apply Nat.ltb_lt.
  apply orb_prop in H as [H|H]; apply andb_prop in H as [_ H%Nat.leb_le]; lia.
Qed.

Lemma skip_all_mark n s : starts_with_mark s = true → skip_all pats n s = s.
Proof using Hascii.
  destruct s as [|c s]; [done|]. cbn [starts_with_mark]. unfold is_ascii_mark.
  intros [Hc Hs]%andb_prop. destruct n; [done|]. cbn [skip_all].
  rewrite Hascii by done. by destruct (is_ascii_space c).
Qed.

Lemma skip_all_blank n pad s :
  blank pad = true → (String.length (pad ++ s) <= n)%nat →
  skip_all pats n (pad ++ s) = skip_all pats n s.
Proof using Hascii Hpats.
  revert n. induction pad as [|c pad IH]; intros n; [done|].
  cbn [blank]. intros [Hc Hpad]%andb_prop. rewrite append_cons.
  cbn [String.length]. intros Hn.
  destruct n as [|n]; [lia|]. rewrite (skip_all_S n (String c _)).
  rewrite Hascii, Hc by (by apply is_ascii_space_ascii).
  rewrite IH by (done || lia).
  apply skip_all_fuel; rewrite length_append in Hn; lia.
Qed.

End skipping.

Section stripping.
Import Answer.
Implicit Types (s r b w pad lead : string) (c sep : ascii).

Lemma whitespace_high : forallb high_tail whitespace = true.
Proof. reflexivity. Qed.

Lemma whitespace_reversed_high :
  forallb high_tail (reverse <$> whitespace) = true.
Proof. reflexivity. Qed.

Lemma whitespace_ascii c s :
  (nat_of_ascii c <? 128)%nat = true →
  skip_any whitespace (String c s)
  = if is_ascii_space c then Some s else None.
Proof.
  destruct c as [[] [] [] [] [] [] [] []]; intros H;
    (discriminate H || reflexivity).
Qed.

Lemma whitespace_reversed_ascii c s :
  (nat_of_ascii c <? 128)%nat = true →
  skip_any (reverse <$> whitespace) (String c s)
  = if is_ascii_space c then Some s else None.
Proof.
  destruct c as [[] [] [] [] [] [] [] []]; intros H;
    (discriminate H || reflexivity).
Qed.

Lemma blank_append s1 s2 : blank (s1 ++ s2) = blank s1 && blank s2.
Proof.
  induction s1 as [|c s1 IH]; [done|]. rewrite append_cons.
  cbn [blank]. rewrite IH. by destruct (is_ascii_space c).
Qed.

Lemma blank_reverse s : blank (reverse s) = blank s.
Proof.
  induction s as [|c s IH]; [done|]. cbn [reverse blank].
  rewrite blank_append, IH. cbn [blank].
  by destruct (blank s), (is_ascii_space c).
Qed.

Lemma starts_with_mark_append s1 s2 :
  starts_with_mark s1 = true → starts_with_mark (s1 ++ s2) = true.
Proof. by destruct s1. Qed.

Lemma lstrip_append r b :
  ascii_head b = true →
  lstrip (r ++ b)
  = if decide (lstrip r = "") then lstrip b else lstrip r ++ b.
Proof.
  intros Hb. unfold lstrip. rewrite length_append.
  by apply skip_all_app; [apply whitespace_high|..].
Qed.

Lemma lstrip_blank pad s : blank pad = true → lstrip (pad ++ s) = lstrip s.
Proof.
  intros Hpad. unfold lstrip.
  rewrite (skip_all_blank _ whitespace_high whitespace_ascii) by done.
  apply skip_all_fuel; [apply whitespace_high|rewrite length_append; lia|done].
Qed.

Lemma lstrip_mark s : starts_with_mark s = true → lstrip s = s.
Proof. apply (skip_all_mark _ whitespace_ascii). Qed.

Lemma rstrip_blank s pad : blank pad = true → rstrip (s ++ pad) = rstrip s.
Proof.
  intros Hpad. unfold rstrip. f_equal. rewrite reverse_append.
  rewrite (skip_all_blank _ whitespace_reversed_high whitespace_reversed_ascii);
    [|by rewrite blank_reverse|by rewrite <- reverse_append, length_reverse].
  apply skip_all_fuel; [apply whitespace_reversed_high|..].
  - rewrite length_reverse, length_append. lia.
  - by rewrite length_reverse.
Qed.

Lemma rstrip_mark s : starts_with_mark (reverse s) = true → rstrip s = s.
Proof.
  intros Hs. unfold rstrip.
  rewrite (skip_all_mark _ whitespace_reversed_ascii) by done.
  apply reverse_involutive.
Qed.

Lemma strip_edged w : edged w = true → strip w = w.
Proof.
  intros [H1 H2]%andb_prop. unfold strip.
  by rewrite lstrip_mark, rstrip_mark.
Qed.

Lemma split_absent sep s : contains sep s = false → split sep s = [s].
Proof.
  induction s as [|c s IH]; [done|]. cbn [contains split].
  intros [-> Hs]%orb_false_elim. by rewrite IH.
Qed.

Lemma split_last sep s w :
  contains sep w = false →
  ∃ x xs, split sep (s ++ String sep w) = x :: xs
          ∧ xs ≠ [] ∧ List.last xs "" = w.
Proof.
  intros Hw. induction s as [|c s (x & xs & IH & Hxs & Hlast)].
  - exists "", [w]. rewrite append_nil_l. cbn [split].
    by rewrite Ascii.eqb_refl, split_absent.
  - rewrite append_cons. cbn [split]. rewrite IH.
    destruct (Ascii.eqb c sep).
    + exists "", (x :: xs). split; [done|]. split; [done|].
      by destruct xs.
    + by exists (String c x), xs.
Qed.

Lemma last_split sep s w :
  contains sep w = false →
  List.last (split sep (s ++ String sep w)) "" = w.
Proof.
  intros Hw. destruct (split_last sep s w Hw) as (x & xs & -> & Hxs & Hlast).
  by destruct xs.
Qed.

Lemma max_by_created_at_spec m l :
  max_by_created_at m l ∈ m :: l
  ∧ ∀ m', m' ∈ m :: l →
          (created_at m' <= created_at (max_by_created_at m l))%Z.
Proof.
  revert m. induction l as [|x l IH]; intros m.
  - split; [left|]. by intros m' ->%list_elem_of_singleton.
  - cbn [max_by_created_at].
    destruct (IH (if (created_at m <? created_at x)%Z then x else m))
      as [Hin Hmax].
    split.
    + apply elem_of_cons in Hin as [->|Hin].
      * destruct (created_at m <? created_at x)%Z; [right|]; left.
      * by do 2 right.
    + intros m' Hm'.
      assert (created_at m' <=
              created_at (if (created_at m <? created_at x)%Z then x else m)
              ∨ m' ∈ l)%Z as [Hle|Hl].
      { apply elem_of_cons in Hm' as [->|[->|Hm']%elem_of_cons]; [| |by right];
          left; destruct (Z.ltb_spec (created_at m) (created_at x)); lia. }
      * etrans; [exact Hle|]. apply Hmax. left.
      * apply Hmax. by right.
Qed.

End stripping.

(** X13.  What the classifier reads from a response.  Let the response end
    with a line that holds a text [w] between white space of ASCII, [w]
    beginning and ending with a visible character of ASCII, and let only
    white space follow that line.  Then the answer is [w] when [w] is "Yes"
    or "No", and "Unknown" otherwise, whatever stands before the line, and
    also when nothing but white space stands before it: a response that is
    this one line. *)
Theorem answer_of_last_line (reasoning lead w pad : string) :
  Answer.edged w = true → contains "010" w = false →
  Answer.blank lead = true → Answer.blank pad = true →
  (contains "010" lead = false →
   Answer.yes_no_of_text (reasoning ++ Str.nl ++ lead ++ w ++ pad)
   = if bool_decide (w ∈ ["Yes"; "No"]) then w else "Unknown")
  ∧ Answer.yes_no_of_text (lead ++ w ++ pad)
    = (if bool_decide (w ∈ ["Yes"; "No"]) then w else "Unknown").
Proof.
  intros Hw Hw' Hlead Hpad.
  destruct (andb_prop _ _ Hw) as [Hw1 Hw2].
  assert (Answer.strip (lead ++ w) = w) as Hline.
  { unfold Answer.strip.
    by rewrite lstrip_blank, lstrip_mark, rstrip_mark. }
  split.
  - intros Hlead'.
    assert (Answer.strip
              (List.last
                 (Answer.split "010"
                    (Answer.strip (reasoning ++ Str.nl ++ lead ++ w ++ pad))) "")
            = w) as Hanswer.
    { change (reasoning ++ Str.nl ++ lead ++ w ++ pad)
        with (reasoning ++ String "010" (lead ++ w ++ pad)).
      unfold Answer.strip at 2. rewrite lstrip_append by done.
      assert (Answer.lstrip (String "010" (lead ++ w ++ pad)) = w ++ pad) as ->.
      { change (String "010" (lead ++ w ++ pad))
          with (String "010" lead ++ w ++ pad).
        rewrite lstrip_blank by (cbn [Answer.blank]; by rewrite Hlead).
        apply lstrip_mark. by apply starts_with_mark_append. }
      case_decide as Hr.
      - rewrite rstrip_blank, rstrip_mark by done.
        rewrite split_absent by done. cbn [List.last].
        by apply strip_edged.
      - set (r := Answer.lstrip reasoning) in *.
        replace (r ++ String "010" (lead ++ w ++ pad))
          with ((r ++ String "010" (lead ++ w)) ++ pad).
        2:{ rewrite append_assoc. f_equal.
            change (String "010" (lead ++ w) ++ pad)
              with (String "010" ((lead ++ w) ++ pad)).
            by rewrite append_assoc. }
        rewrite rstrip_blank by done.
        rewrite rstrip_mark.
        2:{ change (String "010" (lead ++ w)) with (String "010" lead ++ w).
            rewrite <- append_assoc, reverse_append.
            by apply starts_with_mark_append. }
        rewrite last_split; [done|].
        by rewrite contains_append, Hlead', Hw'. }
    unfold Answer.yes_no_of_text. cbv zeta. by rewrite Hanswer.
  - assert (Answer.strip (lead ++ w ++ pad) = w) as Hstrip.
    { unfold Answer.strip.
      rewrite lstrip_blank by done.
      rewrite lstrip_mark by (by apply starts_with_mark_append).
      by rewrite rstrip_blank, rstrip_mark. }
    unfold Answer.yes_no_of_text. cbv zeta.
    rewrite Hstrip, split_absent by done. cbn [List.last].
    by rewrite strip_edged.
Qed.

Lemma answer_of_last_line_witness :
  Answer.yes_no_of_text
    ("The assignment is random." ++ Str.nl ++ "  " ++ "Yes" ++ Str.nl)
  = "Yes"
  ∧ Answer.yes_no_of_text
      ("The assignment is random." ++ Str.nl ++ "" ++ "Yes." ++ "")
    = "Unknown"
  ∧ Answer.yes_no_of_text ("" ++ "Yes" ++ "") = "Yes"
  ∧ Answer.yes_no_of_text ("" ++ "No" ++ "") = "No"
  ∧ Answer.yes_no_of_text ("" ++ "Yes" ++ Str.nl) = "Yes".
Proof.
  split; [|split; [|split; [|split]]].
  - apply (proj1 (answer_of_last_line "The assignment is random." "  " "Yes"
                    Str.nl eq_refl eq_refl eq_refl eq_refl)).
    reflexivity.
  - apply (proj1 (answer_of_last_line "The assignment is random." "" "Yes." ""
                    eq_refl eq_refl eq_refl eq_refl)).
    reflexivity.
  - apply (proj2 (answer_of_last_line "" "" "Yes" ""
                    eq_refl eq_refl eq_refl eq_refl)).
  - apply (proj2 (answer_of_last_line "" "" "No" ""
                    eq_refl eq_refl eq_refl eq_refl)).
  - apply (proj2 (answer_of_last_line "" "" "Yes" Str.nl
                    eq_refl eq_refl eq_refl eq_refl)).
Defined.

(** X14.  Which message the answer is read from.  With no assistant message
    in the thread the answer is "Unknown".  Otherwise it is read from an
    assistant message whose time stamp no assistant message exceeds; the
    messages of other roles play no part.  In every case the answer is one
    of "Yes", "No" and "Unknown". *)
Theorem answer_of_thread (data : list Answer.message) :
  Answer.yes_no_answer data ∈ ["Yes"; "No"; "Unknown"]
  ∧ Answer.yes_no_answer data
    = Answer.yes_no_answer
        (filter (λ msg, Answer.role msg = "assistant") data)
  ∧ ((∀ msg, msg ∈ data → Answer.role msg ≠ "assistant") →
     Answer.yes_no_answer data = "Unknown")
  ∧ ((∃ msg, msg ∈ data ∧ Answer.role msg = "assistant") →
     ∃ latest,
       latest ∈ data ∧ Answer.role latest = "assistant"
       ∧ (∀ msg, msg ∈ data → Answer.role msg = "assistant" →
                 (Answer.created_at msg <= Answer.created_at latest)%Z)
       ∧ Answer.yes_no_answer data
         = Answer.yes_no_of_text (Answer.text_value latest)).
Proof.
  split; [|split; [|split]].
  - unfold Answer.yes_no_answer.
    destruct (filter _ data) as [|m l]; [by do 2 right; left|].
    unfold Answer.yes_no_of_text. cbv zeta. case_bool_decide as Hin.
    + apply elem_of_cons in Hin as [->|Hin]; [left|].
      apply list_elem_of_singleton in Hin as ->. right; left.
    + do 2 right; left.
  - unfold Answer.yes_no_answer. by rewrite list_filter_filter_l.
  - intros Hnone. unfold Answer.yes_no_answer.
    destruct (filter _ data) as [|m l] eqn:Hf; [done|].
    assert (m ∈ filter (λ msg, Answer.role msg = "assistant") data) as Hm
      by (rewrite Hf; left).
    apply list_elem_of_filter in Hm as [Hrole Hm]. by destruct (Hnone m).
  - intros (msg & Hmsg & Hrole). unfold Answer.yes_no_answer.
    destruct (filter _ data) as [|m l] eqn:Hf.
    { assert (msg ∈ filter (λ msg, Answer.role msg = "assistant") data) as Hin
        by (by apply list_elem_of_filter).
      rewrite Hf in Hin. by apply elem_of_nil in Hin. }
    destruct (max_by_created_at_spec m l) as [Hin Hmax].
    rewrite <- Hf in Hin, Hmax.
    apply list_elem_of_filter in Hin as [Hlr Hin].
    eexists. split; [exact Hin|]. split; [exact Hlr|]. split; [|done].
    intros m' Hm' Hr'. apply Hmax. by apply list_elem_of_filter.
Qed.

Lemma answer_of_thread_witness :
  Answer.yes_no_answer
    [Answer.mkMessage "user" 3 "Yes"; Answer.mkMessage "tool" 5 "No"]
  = "Unknown".
Proof.
  apply (answer_of_thread
           [Answer.mkMessage "user" 3 "Yes"; Answer.mkMessage "tool" 5 "No"]).
  intros msg Hmsg.
  apply elem_of_cons in Hmsg as [->|Hmsg]; [done|].
  apply list_elem_of_singleton in Hmsg as ->. done.
Defined.

(** * The title and the method read from the assistant *)

Section cleanup.
Import Answer Cleanup.
Implicit Types (s old new x : string).

Lemma strip_prefix_self old x : strip_prefix old (old ++ x) = Some x.
Proof.
  induction old as [|c old IH]; [done|]. rewrite append_cons.
  cbn [strip_prefix]. by rewrite Ascii.eqb_refl.
Qed.

Lemma replace_rounds_absent n old new s :
  occurs old s = false → replace_rounds n old new s = s.
Proof.
  revert s. induction n as [|n IH]; intros s; [done|].
  destruct s as [|c s]; cbn [occurs replace_rounds];
    destruct (strip_prefix old _); try done.
  intros Hs. by rewrite IH.
Qed.

Lemma replace_marked old x :
  old ≠ "" → occurs old x = false → replace old "" (old ++ x) = x.
Proof.
  intros Hold Hx. unfold replace. rewrite length_append.
  destruct old as [|c old]; [done|]. cbn [String.length Nat.add].
  cbn [replace_rounds]. rewrite strip_prefix_self.
  rewrite append_nil_l. by apply replace_rounds_absent.
Qed.

Lemma replace_absent old new s : occurs old s = false → replace old new s = s.
Proof. apply replace_rounds_absent. Qed.

Lemma strip_padded w pad :
  edged w = true → blank pad = true → strip (w ++ pad) = w.
Proof.
  intros [H1 H2]%andb_prop Hpad. unfold strip.
  rewrite lstrip_mark by (by apply starts_with_mark_append).
  by rewrite rstrip_blank, rstrip_mark.
Qed.

End cleanup.

(** X15.  The title and the research method are read from the assistant by
    deleting the label and stripping.  For a response made of the label,
    then a text that begins and ends with a visible character of ASCII, then
    white space of ASCII, with no second occurrence of the label, the result
    is that text; a response with the label nowhere in it is only stripped. *)
Theorem cleanup_of_response (w pad response : string) :
  Answer.edged w = true → Answer.blank pad = true →
  (Cleanup.occurs "Title: " (w ++ pad) = false →
   Cleanup.title_of ("Title: " ++ w ++ pad) = w)
  ∧ (Cleanup.occurs "Resulting Method: " (w ++ pad) = false →
     Cleanup.resulting_method_of ("Resulting Method: " ++ w ++ pad) = w)
  ∧ (Cleanup.occurs "Title: " response = false →
     Cleanup.title_of response = Answer.strip response)
  ∧ (Cleanup.occurs "Resulting Method: " response = false →
     Cleanup.resulting_method_of response = Answer.strip response).
Proof.
  intros Hw Hpad.
  unfold Cleanup.title_of, Cleanup.resulting_method_of.
  split; [|split; [|split]]; intros Hocc.
  - rewrite replace_marked by done. by apply strip_padded.
  - rewrite replace_marked by done. by apply strip_padded.
  - by rewrite replace_absent.
  - by rewrite replace_absent.
Qed.

Lemma cleanup_of_response_witness :
  Cleanup.resulting_method_of ("Resulting Method: " ++ "Experiments" ++ Str.nl)
  = "Experiments"
  ∧ Cleanup.title_of ("Title: " ++ "A study of reviews" ++ "")
    = "A study of reviews".
Proof.
  split.
  - apply (cleanup_of_response "Experiments" Str.nl ""); reflexivity.
  - apply (cleanup_of_response "A study of reviews" "" ""); reflexivity.
Defined.

(** * The methods on offer *)

(** X16.  The classifier offers fifteen research methods, not sixteen:
    neither "Data Science" nor "Engineering Research" is one of them, their
    concatenation is.  For each of the fifteen, the criteria file that
    [is_criteria_available] looks for is loaded under that very name. *)
Theorem methods_on_offer :
  List.length Classifier.RESEARCH_METHODS = 15
  ∧ ¬ ("Data Science" ∈ Classifier.RESEARCH_METHODS)
  ∧ ¬ ("Engineering Research" ∈ Classifier.RESEARCH_METHODS)
  ∧ "Data ScienceEngineering Research" ∈ Classifier.RESEARCH_METHODS
  ∧ Forall (λ m, method_of_path (OsPath.join "csv/" (m ++ ".csv")) = m)
           Classifier.RESEARCH_METHODS.
Proof.
  split; [reflexivity|].
  split; [by apply (bool_decide_unpack _)|].
  split; [by apply (bool_decide_unpack _)|].
  split; [left|].
  apply Forall_forall. intros m Hm. apply method_round_trip.
  revert m Hm. apply Forall_forall.
  unfold Classifier.RESEARCH_METHODS. repeat constructor.
Qed.
